(** * Mapty: the workout records, the form handler and the persistence of
    [script.js], embedded in Rocq.

    JavaScript numbers are IEEE 754 binary64 values, modelled by Rocq's
    primitive floats; strings are [string]s over the ASCII range the program
    produces; the current time is an integral number of milliseconds, kept as
    a [Z]; the browser's [localStorage] is a finite map from keys to items. *)

From Stdlib Require Import ZArith Lia Bool List Ascii String.
From Stdlib Require Import Floats.
From stdpp Require Import base option gmap strings.

Set Warnings "-register-all,-inexact-float".

Local Open Scope string_scope.
Local Open Scope Z_scope.

(** ** Numbers *)

(** The Number type of the language. *)
Definition number : Set := float.
Bind Scope float_scope with number.

(** [Number.isFinite(x)], for an [x] that is a Number. *)
Definition Number_isFinite (x : number) : bool := PrimFloat.is_finite x.

(** [x > 0], false on [NaN]. *)
Definition gt0 (x : number) : bool := (0 <? x)%float.

(** ** Strings *)

Definition digit (d : Z) : ascii := ascii_of_N (48 + Z.to_N d).

(** The decimal numeral of a natural number [n], most significant digit
    first; [fuel] bounds the number of digits. *)
Fixpoint digits (fuel : nat) (n : Z) : string :=
  match fuel with
  | O => ""
  | S fuel' =>
      if n <? 10 then String (digit n) ""
      else digits fuel' (n / 10) ++ String (digit (n mod 10)) ""
  end.

(** [n + ''] for an integral Number [n] below 10^21 in magnitude: the decimal
    numeral, with a minus sign when negative. *)
Definition toString (n : Z) : string :=
  if n <? 0 then "-" ++ digits (S (Z.to_nat (Z.log2 (- n)))) (- n)
  else digits (S (Z.to_nat (Z.log2 n))) n.

(** The last [k] decimal digits of [n], zero-padded: the numeral of
    [n mod 10^k] on [k] places. *)
Fixpoint lastDigits (k : nat) (n : Z) : string :=
  match k with
  | O => ""
  | S k' => lastDigits k' (n / 10) ++ String (digit (n mod 10)) ""
  end.

(** The value of a decimal numeral; [None] when a character is not a digit. *)
Fixpoint numeral_value (acc : Z) (s : string) : option Z :=
  match s with
  | "" => Some acc
  | String c s' =>
      let d := Z.of_N (N_of_ascii c) - 48 in
      if (0 <=? d) && (d <? 10) then numeral_value (10 * acc + d) s' else None
  end.

Fixpoint skip (n : nat) (s : string) : string :=
  match n, s with
  | O, _ => s
  | S n', String _ s' => skip n' s'
  | S _, "" => ""
  end.

(** [s.slice(start)]: from [start] to the end, a negative [start] counting
    from the end of the string. *)
Definition slice (start : Z) (s : string) : string :=
  let len := Z.of_nat (String.length s) in
  let from := if start <? 0 then Z.max (len + start) 0 else Z.min start len in
  skip (Z.to_nat from) s.

(** [s[0]]: [None] stands for [undefined]. *)
Definition first_char (s : string) : option string :=
  match s with
  | "" => None
  | String c _ => Some (String c "")
  end.

Definition upper (c : ascii) : ascii :=
  let n := N_of_ascii c in
  if ((97 <=? n) && (n <=? 122))%N then ascii_of_N (n - 32) else c.

(** [s.toUpperCase()] on ASCII text. *)
Fixpoint toUpperCase (s : string) : string :=
  match s with
  | "" => ""
  | String c s' => String (upper c) (toUpperCase s')
  end.

(** ** Dates: the time-value arithmetic of the language *)

Definition msPerDay : Z := 86400000.

Definition Day (t : Z) : Z := t / msPerDay.

Definition DaysInYear (y : Z) : Z :=
  if negb (y mod 4 =? 0) then 365
  else if negb (y mod 100 =? 0) then 366
  else if negb (y mod 400 =? 0) then 365
  else 366.

Definition DayFromYear (y : Z) : Z :=
  365 * (y - 1970) + (y - 1969) / 4 - (y - 1901) / 100 + (y - 1601) / 400.

Definition TimeFromYear (y : Z) : Z := msPerDay * DayFromYear y.

(** The largest [y] with [TimeFromYear y <= t]: one of three candidates
    around the mean-year estimate. *)
Definition YearFromTime (t : Z) : Z :=
  let y := 1970 + Day t * 400 / 146097 in
  if TimeFromYear (y + 1) <=? t then y + 1
  else if TimeFromYear y <=? t then y
  else y - 1.

Definition InLeapYear (t : Z) : Z :=
  if DaysInYear (YearFromTime t) =? 366 then 1 else 0.

Definition DayWithinYear (t : Z) : Z := Day t - DayFromYear (YearFromTime t).

Definition MonthFromTime (t : Z) : Z :=
  let d := DayWithinYear t in
  let leap := InLeapYear t in
  if d <? 31 then 0
  else if d <? 59 + leap then 1
  else if d <? 90 + leap then 2
  else if d <? 120 + leap then 3
  else if d <? 151 + leap then 4
  else if d <? 181 + leap then 5
  else if d <? 212 + leap then 6
  else if d <? 243 + leap then 7
  else if d <? 273 + leap then 8
  else if d <? 304 + leap then 9
  else if d <? 334 + leap then 10
  else 11.

Definition DateFromTime (t : Z) : Z :=
  let d := DayWithinYear t in
  let leap := InLeapYear t in
  match MonthFromTime t with
  | 0 => d + 1
  | 1 => d - 30
  | 2 => d - 58 - leap
  | 3 => d - 89 - leap
  | 4 => d - 119 - leap
  | 5 => d - 150 - leap
  | 6 => d - 180 - leap
  | 7 => d - 211 - leap
  | 8 => d - 242 - leap
  | 9 => d - 272 - leap
  | 10 => d - 303 - leap
  | _ => d - 333 - leap
  end.

Definition HourFromTime (t : Z) : Z := (t / 3600000) mod 24.
Definition MinFromTime (t : Z) : Z := (t / 60000) mod 60.
Definition SecFromTime (t : Z) : Z := (t / 1000) mod 60.
Definition msFromTime (t : Z) : Z := t mod 1000.

(** [d.toISOString()] for the Date of time value [t]:
    YYYY-MM-DDTHH:mm:ss.sssZ, in UTC, the year on six signed places outside
    0..9999. *)
Definition toISOString (t : Z) : string :=
  let y := YearFromTime t in
  (if (0 <=? y) && (y <=? 9999) then lastDigits 4 y
   else (if y <? 0 then "-" else "+") ++ lastDigits 6 (Z.abs y))
  ++ "-" ++ lastDigits 2 (MonthFromTime t + 1)
  ++ "-" ++ lastDigits 2 (DateFromTime t)
  ++ "T" ++ lastDigits 2 (HourFromTime t)
  ++ ":" ++ lastDigits 2 (MinFromTime t)
  ++ ":" ++ lastDigits 2 (SecFromTime t)
  ++ "." ++ lastDigits 3 (msFromTime t) ++ "Z".

(** ** Values and JSON *)

(** The values the program stores in records and reads back from storage.
    An object is the list of its own enumerable properties in the order of
    their creation; no property of the program is named by an array index,
    which the language would list first. *)
Inductive value :=
| Undefined
| Null
| Bool (b : bool)
| Num (x : number)
| Str (s : string)
| DateObj (t : Z)                          (* a Date with time value [t] *)
| Arr (items : list value)
| Obj (props : list (string * value)).

(** The values a JSON text can denote. A stored text is identified with the
    tree it denotes: printing a tree and reading the text back is the
    runtime's part, what a value loses when it is turned into a tree is
    [SerializeJSONProperty]. *)
Inductive json :=
| JNull
| JBool (b : bool)
| JNum (x : number)
| JStr (s : string)
| JArr (items : list json)
| JObj (members : list (string * json)).

(** A finite Number is printed as the shortest numeral that reads back as the
    same Number; both zeros are printed as 0. *)
Definition printed (x : number) : number :=
  if PrimFloat.is_zero x then 0%float else x.

(** [SerializeJSONProperty]: [None] stands for [undefined] (no text). A Date
    is replaced by the result of its [toJSON], its ISO string; a Number that
    is not finite becomes [null]; in an array an [undefined] item becomes
    [null]; in an object a property without a text is left out. *)
Fixpoint SerializeJSONProperty (v : value) : option json :=
  match v with
  | Undefined => None
  | Null => Some JNull
  | Bool b => Some (JBool b)
  | Num x => Some (if Number_isFinite x then JNum (printed x) else JNull)
  | Str s => Some (JStr s)
  | DateObj t => Some (JStr (toISOString t))
  | Arr items =>
      Some (JArr (map (fun v' => default JNull (SerializeJSONProperty v')) items))
  | Obj props =>
      Some (JObj ((fix members (l : list (string * value)) : list (string * json) :=
                     match l with
                     | [] => []
                     | (k, v') :: l' =>
                         match SerializeJSONProperty v' with
                         | Some j => (k, j) :: members l'
                         | None => members l'
                         end
                     end) props))
  end.

(** The value [JSON.parse] builds for a tree. *)
Fixpoint parsed (j : json) : value :=
  match j with
  | JNull => Null
  | JBool b => Bool b
  | JNum x => Num x
  | JStr s => Str s
  | JArr items => Arr (map parsed items)
  | JObj members => Obj (map (fun kj => (fst kj, parsed (snd kj))) members)
  end.

(** [o[k]] on the property list of an object: the last definition of [k]
    counts; [None] stands for [undefined]. *)
Fixpoint prop (k : string) (props : list (string * value)) : option value :=
  match props with
  | [] => None
  | (k', v) :: rest =>
      match prop k rest with
      | Some v' => Some v'
      | None => if String.eqb k k' then Some v else None
      end
  end.

(** ** Workout records *)

(** The fields the subclass adds: [cadence] and [pace] for Running,
    [elevation] and [speed] for Cycling. *)
Inductive Extra :=
| Running (cadence pace : number)
| Cycling (elevation speed : number).

(** An instance of Running or Cycling, with its own fields. *)
Record Workout := mkWorkout {
  date : Z;                       (* date = new Date(): its time value *)
  id : string;
  clicks : number;
  coords : number * number;       (* [lat, lng] *)
  distance : number;
  duration : number;
  type : string;
  extra : Extra;
  description : string
}.

(** The own enumerable properties of an instance, in the order in which the
    field initialisers and the constructors create them. *)
Definition own_fields (w : Workout) : list (string * value) :=
  [ ("date", DateObj (date w));
    ("id", Str (id w));
    ("clicks", Num (clicks w));
    ("coords", Arr [Num (fst (coords w)); Num (snd (coords w))]);
    ("distance", Num (distance w));
    ("duration", Num (duration w));
    ("type", Str (type w)) ]
  ++ match extra w with
     | Running cadence pace => [ ("cadence", Num cadence); ("pace", Num pace) ]
     | Cycling elevation speed => [ ("elevation", Num elevation); ("speed", Num speed) ]
     end
  ++ [ ("description", Str (description w)) ].

(** [calcPace]: [this.pace = this.duration / this.distance], in min/km. *)
Definition calcPace (duration distance : number) : number :=
  (duration / distance)%float.

(** [calcSpeed]: [this.speed = this.distance / (this.duration / 60)], in km/h. *)
Definition calcSpeed (distance duration : number) : number :=
  (distance / (duration / 60))%float.

(** [click]: [this.clicks++]. *)
Definition click (this : Workout) : Workout :=
  mkWorkout (date this) (id this) (clicks this + 1)%float (coords this)
            (distance this) (duration this) (type this) (extra this)
            (description this).

(** [this.cadence], [this.pace], [this.elevation], [this.speed]: [None]
    stands for [undefined]. *)
Definition cadence (this : Workout) : option number :=
  match extra this with Running c _ => Some c | Cycling _ _ => None end.

Definition pace (this : Workout) : option number :=
  match extra this with Running _ p => Some p | Cycling _ _ => None end.

Definition elevation (this : Workout) : option number :=
  match extra this with Cycling e _ => Some e | Running _ _ => None end.

Definition speed (this : Workout) : option number :=
  match extra this with Cycling _ s => Some s | Running _ _ => None end.

Definition months : list string :=
  [ "January"; "February"; "March"; "April"; "May"; "June"; "July";
    "August"; "September"; "October"; "November"; "December" ].

(** [a[i]] inside a template literal: an index outside the array reads
    [undefined], which is printed as such. *)
Definition index_text (a : list string) (i : Z) : string :=
  match (if i <? 0 then None else nth_error a (Z.to_nat i)) with
  | Some s => s
  | None => "undefined"
  end.

(** ** The application state and its effects *)

(** The values of the form's input elements and its [hidden] class. *)
Record Form := mkForm {
  inputType : string;
  inputDistance : string;
  inputDuration : string;
  inputCadence : string;
  inputElevation : string;
  hidden : bool
}.

(** An element of [#workouts]: an instance built in this session, or a value
    that is no instance (a plain record read from storage, [undefined]). *)
Inductive entry :=
| Instance (w : Workout)
| Plain (v : value).

Definition entry_value (e : entry) : value :=
  match e with
  | Instance w => Obj (own_fields w)
  | Plain v => v
  end.

(** A stored string: a JSON text, identified with its tree, or another
    string. *)
Inductive item :=
| Text (j : json)
| NotJSON (s : string).

(** What the page shows, in the order in which it happens. The markup of a
    marker popup or of a list entry is not modelled: the event carries the
    record it is rendered from. *)
Inductive event :=
| PreventDefault
| Alert (message : string)
| Marker (workout : entry)
| ListItem (workout : entry).

Record state := mkState {
  workouts : list entry;                 (* #workouts *)
  mapEvent : option (number * number);   (* #mapEvent.latlng; None: #mapEvent is undefined *)
  form : Form;
  localStorage : gmap string item;
  ticks : nat;                           (* how often the clock has been read *)
  log : list event
}.

Inductive error :=
| TypeError
| SyntaxError.

Inductive completion (A : Type) :=
| Normal (a : A)
| Throw (e : error).
Arguments Normal {A} a.
Arguments Throw {A} e.

(** A computation changes the state and completes normally or throws; the
    state reached at a throw is kept. *)
Definition M (A : Type) : Type := state -> completion A * state.

#[local] Instance M_ret : MRet M := fun A a st => (Normal a, st).

#[local] Instance M_bind : MBind M := fun A B f m st =>
  match m st with
  | (Normal a, st') => f a st'
  | (Throw e, st') => (Throw e, st')
  end.

Definition throw {A} (e : error) : M A := fun st => (Throw e, st).

Definition gets {A} (f : state -> A) : M A := fun st => (Normal (f st), st).

Definition modify (f : state -> state) : M unit := fun st => (Normal tt, f st).

Definition emit (ev : event) : M unit :=
  modify (fun st => mkState (workouts st) (mapEvent st) (form st)
                            (localStorage st) (ticks st) (log st ++ [ev])).

Definition set_workouts (ws : list entry) : M unit :=
  modify (fun st => mkState ws (mapEvent st) (form st)
                            (localStorage st) (ticks st) (log st)).

Definition set_form (f : Form) : M unit :=
  modify (fun st => mkState (workouts st) (mapEvent st) f
                            (localStorage st) (ticks st) (log st)).

Definition set_localStorage (ls : gmap string item) : M unit :=
  modify (fun st => mkState (workouts st) (mapEvent st) (form st)
                            ls (ticks st) (log st)).

Fixpoint forEach {A} (f : A -> M unit) (l : list A) : M unit :=
  match l with
  | [] => mret tt
  | x :: l' => f x ;; forEach f l'
  end.

(** ** A sample host and sample pages, for the examples *)

(** The conversion of the strings the examples type into the form: the
    Number of each numeral, 0 for the empty string, and NaN for text that is
    no numeral. *)
Definition sample_ToNumber (s : string) : number :=
  if String.eqb s "5.2" then 5.2%float
  else if String.eqb s "24" then 24%float
  else if String.eqb s "178" then 178%float
  else if String.eqb s "20" then 20%float
  else if String.eqb s "60" then 60%float
  else if String.eqb s "-300" then (-300)%float
  else if String.eqb s "1e308" then 1e308%float
  else if String.eqb s "1e-308" then 1e-308%float
  else if String.eqb s "0" then 0%float
  else if String.eqb s "" then 0%float
  else nan.

Definition UTC (t : Z) : Z := 0.

(** A clock that starts on 31 October 2020, 00:00:00.000 UTC, and moves by
    one millisecond from reading to reading. *)
Definition sample_clock (n : nat) : Z := 1604102400000 + Z.of_nat n.

Definition New_York : number * number := (40.7, -74.0)%float.

(** A page on which the map was clicked at [New_York] and the form is
    filled as [f]: no workouts yet, an empty store. *)
Definition opened (f : Form) : state :=
  mkState [] (Some New_York) f ∅ 0 [].

(** A page just loaded over the store of [st]. *)
Definition reloaded (st : state) : state :=
  mkState [] None (mkForm "running" "" "" "" "" true) (localStorage st) (ticks st) [].

Definition running_form : Form := mkForm "running" "5.2" "24" "178" "" false.
Definition descent_form : Form := mkForm "cycling" "20" "60" "" "-300" false.
Definition zero_distance_form : Form := mkForm "cycling" "0" "60" "" "20" false.
Definition not_a_number_form : Form := mkForm "running" "abc" "24" "178" "" false.
Definition walking_form : Form := mkForm "walking" "5.2" "24" "" "" false.
Definition overflow_form : Form := mkForm "running" "1e-308" "1e308" "178" "" false.

(** The page [st] after the user has filled the form as [f]. *)
Definition filled (f : Form) (st : state) : state :=
  mkState (workouts st) (mapEvent st) f (localStorage st) (ticks st) (log st).

(** The Running record of the specification's scenario, as the submission
    of [running_form] at the start of [sample_clock] makes it. *)
Definition sample_run : Workout :=
  mkWorkout 1604102400000 "4102400001" 0 New_York 5.2 24 "running"
            (Running 178 (24 / 5.2)) "Running on October 31".

(** The record of a second submission of [running_form], two readings of
    [sample_clock] later. *)
Definition sample_run_2 : Workout :=
  mkWorkout 1604102400002 "4102400003" 0 New_York 5.2 24 "running"
            (Running 178 (24 / 5.2)) "Running on October 31".

(** A clock that moves by 10^10 ms from reading to reading, and the records
    of two constructions at its start. *)
Definition slow_clock (n : nat) : Z := 1604102400000 + 10 ^ 10 * Z.of_nat n.

Definition slow_run_1 : Workout :=
  mkWorkout 1604102400000 "4102400000" 0 New_York 5.2 24 "running"
            (Running 178 (24 / 5.2)) "Running on October 31".

Definition slow_run_2 : Workout :=
  mkWorkout 1614102400000 "4102400000" 0 New_York 5.2 24 "running"
            (Running 178 (24 / 5.2)) "Running on February 23".

Section Host.

(** The host: the conversion of a string to a Number by unary [+], the
    offset of local time from UTC at a time value, and the successive
    readings of the wall clock in milliseconds. *)
Variable ToNumber : string -> number.
Variable LocalTZA : Z -> Z.
Variable clock : nat -> Z.

Definition LocalTime (t : Z) : Z := t + LocalTZA t.

Definition getMonth (date : Z) : Z := MonthFromTime (LocalTime date).

Definition getDate (date : Z) : Z := DateFromTime (LocalTime date).

(** [new Date()] and [Date.now()]: the next reading of the clock. *)
Definition now : M Z := fun st =>
  (Normal (clock (ticks st)),
   mkState (workouts st) (mapEvent st) (form st) (localStorage st)
           (S (ticks st)) (log st)).

(** [_setDescription], on the [type] and [date] of [this]: the text it
    assigns to [this.description]. Reading [type[0]] of an empty tag gives
    [undefined], whose [toUpperCase] is a TypeError. *)
Definition _setDescription (type : string) (date : Z) : M string :=
  match first_char type with
  | None => throw TypeError
  | Some c =>
      mret (toUpperCase c ++ slice 1 type ++ " on "
            ++ index_text months (getMonth date) ++ " "
            ++ toString (getDate date))
  end.

(** [new Running(coords, distance, duration, cadence)]: the field
    initialisers of Workout, its constructor, then those of Running. *)
Definition new_Running (coords : number * number)
    (distance duration cadence : number) : M Workout :=
  date ← now;
  t ← now;
  let id := slice (-10) (toString t) in
  let clicks := 0%float in
  let type := "running" in
  let pace := calcPace duration distance in
  description ← _setDescription type date;
  mret (mkWorkout date id clicks coords distance duration type
                  (Running cadence pace) description).

(** [new Cycling(coords, distance, duration, elevation)]. *)
Definition new_Cycling (coords : number * number)
    (distance duration elevation : number) : M Workout :=
  date ← now;
  t ← now;
  let id := slice (-10) (toString t) in
  let clicks := 0%float in
  let type := "cycling" in
  let speed := calcSpeed distance duration in
  description ← _setDescription type date;
  mret (mkWorkout date id clicks coords distance duration type
                  (Cycling elevation speed) description).

(** *** The App *)

Definition validInputs (inputs : list number) : bool :=
  forallb Number_isFinite inputs.

Definition allPositive (inputs : list number) : bool :=
  forallb gt0 inputs.

Definition alert (message : string) : M unit := emit (Alert message).

(** [this.#mapEvent.latlng]: a TypeError when no click on the map has set
    [#mapEvent]. *)
Definition latlng : M (number * number) := fun st =>
  match mapEvent st with
  | Some ll => (Normal ll, st)
  | None => (Throw TypeError, st)
  end.

(** [_showForm], the handler of a click on the map at [ll]: keeps the event
    and shows the form. *)
Definition _showForm (ll : number * number) : M unit :=
  modify (fun st =>
            let f := form st in
            mkState (workouts st) (Some ll)
                    (mkForm (inputType f) (inputDistance f) (inputDuration f)
                            (inputCadence f) (inputElevation f) false)
                    (localStorage st) (ticks st) (log st)).

(** How a branch of the handler ends: by [return], or by falling through
    with the current value of the local [workout]. *)
Inductive branch :=
| Return
| Next (workout : entry).

(** [L.marker(workout.coords).addTo(this.#map)...openPopup()]: reading
    [coords] of [undefined] or [null] is a TypeError. What the map widget
    does with the coordinates is not modelled; [#map] is there whenever
    [#mapEvent] is, which only a click on the loaded map sets. *)
Definition _renderWorkoutMarker (workout : entry) : M unit :=
  match workout with
  | Plain Undefined | Plain Null => throw TypeError
  | _ => emit (Marker workout)
  end.

(** [o.k.toFixed(1)] is evaluated without error only on a Number. *)
Definition toFixed_ok (k : string) (props : list (string * value)) : bool :=
  match prop k props with
  | Some (Num _) => true
  | _ => false
  end.

(** [_renderWorkout]: builds the list entry and inserts it after the form.
    Reading [type] of [undefined] or [null] is a TypeError, and so is
    [toFixed] on a pace or speed that is no Number. *)
Definition _renderWorkout (workout : entry) : M unit :=
  match workout with
  | Plain Undefined | Plain Null => throw TypeError
  | Plain (Obj props) =>
      match prop "type" props with
      | Some (Str tag) =>
          if String.eqb tag "running" && negb (toFixed_ok "pace" props)
          then throw TypeError
          else if String.eqb tag "cycling" && negb (toFixed_ok "speed" props)
          then throw TypeError
          else emit (ListItem workout)
      | _ => emit (ListItem workout)
      end
  | _ => emit (ListItem workout)
  end.

(** [_hideForm]: empties the four inputs and hides the form (the switch of
    its [display] style during the animation is not modelled). *)
Definition _hideForm : M unit :=
  f ← gets form;
  set_form (mkForm (inputType f) "" "" "" "" true).

(** [JSON.stringify(v)], as the item [setItem] stores: the text, or the
    string of [undefined] when there is none. *)
Definition JSON_stringify (v : value) : item :=
  match SerializeJSONProperty v with
  | Some j => Text j
  | None => NotJSON "undefined"
  end.

(** [localStorage.setItem('workouts', JSON.stringify(this.#workouts))]. *)
Definition _setLocalStorage : M unit :=
  ws ← gets workouts;
  ls ← gets localStorage;
  set_localStorage (<["workouts" := JSON_stringify (Arr (map entry_value ws))]> ls).

(** [JSON.parse(localStorage.getItem(k))]: a missing key reads [null],
    whose text parses to [null]; a string that is no JSON text is a
    SyntaxError. *)
Definition JSON_parse_item (k : string) : M value :=
  ls ← gets localStorage;
  match ls !! k with
  | None => mret Null
  | Some (Text j) => mret (parsed j)
  | Some (NotJSON _) => throw SyntaxError
  end.

(** [!data]. *)
Definition falsy (v : value) : bool :=
  match v with
  | Undefined | Null | Bool false | Str "" => true
  | Num x => PrimFloat.is_zero x || PrimFloat.is_nan x
  | _ => false
  end.

(** [_getLocalStorage]. A value that is no array has no [forEach]: the
    TypeError ends the constructor of the App, and the assignment of that
    value to [#workouts] before it is not represented. *)
Definition _getLocalStorage : M unit :=
  data ← JSON_parse_item "workouts";
  if falsy data then mret tt
  else
    match data with
    | Arr items =>
        set_workouts (map Plain items);;
        ws ← gets workouts;
        forEach _renderWorkout ws
    | _ => throw TypeError
    end.

Definition message : string := "Inputs have to be positive numbers!".

(** [_newWorkout], the handler of the form's submit event. *)
Definition _newWorkout : M unit :=
  emit PreventDefault;;
  f ← gets form;
  let type := inputType f in
  let distance := ToNumber (inputDistance f) in
  let duration := ToNumber (inputDuration f) in
  ll ← latlng;
  r ← (if String.eqb type "running" then
         let cadence := ToNumber (inputCadence f) in
         if negb (validInputs [distance; duration; cadence])
            || negb (allPositive [distance; duration; cadence])
         then alert message;; mret Return
         else w ← new_Running ll distance duration cadence;
              mret (Next (Instance w))
       else mret (Next (Plain Undefined)));
  match r with
  | Return => mret tt
  | Next workout =>
      r ← (if String.eqb type "cycling" then
             let elevation := ToNumber (inputElevation f) in
             if negb (validInputs [distance; duration; elevation])
                || negb (allPositive [distance; duration])
             then alert message;; mret Return
             else w ← new_Cycling ll distance duration elevation;
                  mret (Next (Instance w))
           else mret (Next workout));
      match r with
      | Return => mret tt
      | Next workout =>
          ws ← gets workouts;
          set_workouts (ws ++ [workout]);;
          _renderWorkoutMarker workout;;
          _renderWorkout workout;;
          _hideForm;;
          _setLocalStorage
      end
  end.

(** *** The rest of the App *)

(** [_loadMap], the callback of the geolocation: after the map is made (the
    map itself is outside this state), a marker is rendered for every
    workout of the collection. *)
Definition _loadMap : M unit :=
  ws ← gets workouts;
  forEach _renderWorkoutMarker ws.

(** [new App()]: the request of the position and the listeners leave the
    state as it is; the collection is read from the store. *)
Definition new_App : M unit := _getLocalStorage.

(** [work.id === i], the callback of [find] in [_moveToPopup]: reading [id]
    of [undefined] or [null] is a TypeError; only a string is identical to
    the string [i]. *)
Definition has_id (i : string) (work : entry) : M bool :=
  match work with
  | Plain Undefined | Plain Null => throw TypeError
  | Instance w => mret (String.eqb (id w) i)
  | Plain (Obj props) =>
      mret (match prop "id" props with
            | Some (Str s) => String.eqb s i
            | _ => false
            end)
  | Plain _ => mret false
  end.

(** [a.find(p)]: the first element on which [p] holds; [None] stands for
    [undefined]. *)
Fixpoint Array_find (p : entry -> M bool) (a : list entry) : M (option entry) :=
  match a with
  | [] => mret None
  | x :: a' =>
      b ← p x;
      if b : bool then mret (Some x) else Array_find p a'
  end.

(** [_moveToPopup], the handler of a click in the list. [clicked] is the
    [data-id] of the list entry that holds the target of the click, [None]
    when no entry holds it; [map] tells whether [#map] is set. The result is
    the workout whose [coords] are passed to [setView] of the map, [None]
    when the handler returns before. Reading [setView] of an unset [#map],
    or [coords] of [undefined], is a TypeError. *)
Definition _moveToPopup (map : bool) (clicked : option string) : M (option entry) :=
  match clicked with
  | None => mret None
  | Some i =>
      ws ← gets workouts;
      workout ← Array_find (has_id i) ws;
      if negb map then throw TypeError
      else
        match workout with
        | None => throw TypeError
        | Some e => mret (Some e)
        end
  end.

(** [reset]: removes the item of the collection from the store and loads the
    page anew, which makes a new App. *)
Definition reset (st : state) : completion unit * state :=
  new_App (reloaded (mkState (workouts st) (mapEvent st) (form st)
                             (delete "workouts" (localStorage st))
                             (ticks st) (log st))).

(** The value an entry of the collection is read back as, once stored. *)
Definition read_entry (e : entry) : entry :=
  Plain (parsed (default JNull (SerializeJSONProperty (entry_value e)))).

(** The tag of an instance names its subclass, as the constructors have it. *)
Definition tagged (w : Workout) : Prop :=
  match extra w with
  | Running _ _ => type w = "running"
  | Cycling _ _ => type w = "cycling"
  end.

(** [w] is the record a constructor makes in the state [st]. *)
Definition made (st : state) (w : Workout) : Prop :=
  exists (ll : number * number) (d du x : number) (st' : state),
    new_Running ll d du x st = (Normal w, st')
    \/ new_Cycling ll d du x st = (Normal w, st').

(** [undefined] and [null], of which no property can be read. *)
Definition nullish (e : entry) : bool :=
  match e with
  | Plain Undefined | Plain Null => true
  | _ => false
  end.

(** The id of an entry, when it has a string as its [id]. *)
Definition id_of (e : entry) : option string :=
  match e with
  | Instance w => Some (id w)
  | Plain (Obj props) =>
      match prop "id" props with
      | Some (Str s) => Some s
      | _ => None
      end
  | Plain _ => None
  end.

(** The state at the TypeError of a submission without a click on the map. *)
Definition unclicked (st : state) : state :=
  mkState (workouts st) None (form st) (localStorage st) (ticks st)
          (log st ++ [PreventDefault]).

(** The store holds the collection as it is in memory. *)
Definition in_sync (st : state) : Prop :=
  localStorage st !! "workouts"
  = Some (JSON_stringify (Arr (map entry_value (workouts st)))).

(** An entry that the list cannot show once it was stored and read back:
    [undefined], or an instance whose pace or speed is not finite. *)
Definition unrenderable (e : entry) : Prop :=
  match e with
  | Plain v => v = Undefined
  | Instance w =>
      match extra w with
      | Running _ p => Number_isFinite p = false /\ type w = "running"
      | Cycling _ s => Number_isFinite s = false /\ type w = "cycling"
      end
  end.

(** *** States of a submission *)

(** The state after [n] more readings of the clock. *)
Definition advance (n : nat) (st : state) : state :=
  mkState (workouts st) (mapEvent st) (form st) (localStorage st)
          (n + ticks st) (log st).

(** The state after a submission that only showed the alert. *)
Definition rejected (st : state) : state :=
  mkState (workouts st) (mapEvent st) (form st) (localStorage st)
          (ticks st) (log st ++ [PreventDefault; Alert message]).

(** The state after a submission that appended the instance [w], rendered
    it, hid the form and stored the collection. *)
Definition accepted (w : Workout) (st : state) : state :=
  mkState (workouts st ++ [Instance w]) (mapEvent st)
          (mkForm (inputType (form st)) "" "" "" "" true)
          (<["workouts" := JSON_stringify (Arr (map entry_value (workouts st ++ [Instance w])))]>
             (localStorage st))
          (2 + ticks st)
          (log st ++ [PreventDefault; Marker (Instance w); ListItem (Instance w)]).

(** The state at the TypeError of a submission that appended [undefined]. *)
Definition crashed (st : state) : state :=
  mkState (workouts st ++ [Plain Undefined]) (mapEvent st) (form st)
          (localStorage st) (ticks st) (log st ++ [PreventDefault]).

(** What a description is to be: the tag with its first letter in upper
    case, " on ", the name the month table has at the month number of the
    date, a space, and the day of the month. *)
Definition described (w : Workout) : Prop :=
  exists (c : ascii) (rest name : string),
    type w = String c rest
    /\ 0 <= getMonth (date w) < 12
    /\ nth_error months (Z.to_nat (getMonth (date w))) = Some name
    /\ 1 <= getDate (date w) <= 31
    /\ description w
       = String (upper c) rest ++ " on " ++ name ++ " " ++ toString (getDate (date w)).

(** The Number fields of an instance. *)
Definition numbers (w : Workout) : list number :=
  [ clicks w; fst (coords w); snd (coords w); distance w; duration w ]
  ++ match extra w with
     | Running cadence pace => [ cadence; pace ]
     | Cycling elevation speed => [ elevation; speed ]
     end.

(** How a field value of an instance is read back after it was stored: a
    string and a finite Number other than zero as they are, a zero as 0, a
    Date as its ISO string, an array item by item. *)
Inductive read_back : value -> value -> Prop :=
| read_back_string (s : string) : read_back (Str s) (Str s)
| read_back_number (x : number) :
    Number_isFinite x = true -> PrimFloat.is_zero x = false ->
    read_back (Num x) (Num x)
| read_back_zero (x : number) :
    PrimFloat.is_zero x = true -> read_back (Num x) (Num 0%float)
| read_back_date (t : Z) : read_back (DateObj t) (Str (toISOString t))
| read_back_array (items items' : list value) :
    Forall2 read_back items items' -> read_back (Arr items) (Arr items').

(** Two property lists with the same names in the same order, the values of
    the second being those of the first read back. *)
Definition fields_read_back (props props' : list (string * value)) : Prop :=
  Forall2 (fun kv kv' => fst kv = fst kv' /\ read_back (snd kv) (snd kv'))
          props props'.

(** ** Properties *)

(** *** Numbers *)

Lemma zero_not_gt0 (x : number) : PrimFloat.is_zero x = true -> gt0 x = false.
Proof.
  unfold PrimFloat.is_zero, gt0.
  rewrite FloatAxioms.eqb_spec, FloatAxioms.ltb_spec.
  change (Prim2SF 0) with (S754_zero false).
  change (Prim2SF PrimFloat.zero) with (S754_zero false).
  destruct (Prim2SF x) as [s | s | | s m e]; cbn; intros H;
    try discriminate; try reflexivity.
  all: destruct s; cbn in *; congruence.
Qed.

Lemma gt0_not_zero (x : number) : gt0 x = true -> PrimFloat.is_zero x = false.
Proof.
  intros H. destruct (PrimFloat.is_zero x) eqn:E; [|reflexivity].
  apply zero_not_gt0 in E. congruence.
Qed.

Lemma gt0_printed (x : number) : gt0 x = true -> printed x = x.
Proof. intros H. unfold printed. now rewrite (gt0_not_zero x H). Qed.

(** *** Strings and numerals *)

Lemma append_nil (s : string) : "" ++ s = s.
Proof. reflexivity. Qed.

Lemma append_cons (c : ascii) (s s' : string) :
  String c s ++ s' = String c (s ++ s').
Proof. reflexivity. Qed.

Lemma append_empty_r (s : string) : s ++ "" = s.
Proof.
  induction s as [|c s IH]; [reflexivity|]. now rewrite append_cons, IH.
Qed.

Lemma append_assoc (s1 s2 s3 : string) : s1 ++ (s2 ++ s3) = (s1 ++ s2) ++ s3.
Proof.
  induction s1 as [|c s1 IH]; [reflexivity|]. now rewrite !append_cons, IH.
Qed.

Lemma length_append (s1 s2 : string) :
  String.length (s1 ++ s2) = (String.length s1 + String.length s2)%nat.
Proof.
  induction s1 as [|c s1 IH]; [reflexivity|].
  rewrite append_cons. simpl. now rewrite IH.
Qed.

Lemma digit_value (d acc : Z) (s : string) :
  0 <= d < 10 ->
  numeral_value acc (String (digit d) s) = numeral_value (10 * acc + d) s.
Proof.
  intros Hd.
  assert (d = 0 \/ d = 1 \/ d = 2 \/ d = 3 \/ d = 4 \/ d = 5 \/ d = 6
          \/ d = 7 \/ d = 8 \/ d = 9) as Hc by lia.
  repeat (destruct Hc as [-> | Hc]; [reflexivity|]). now subst.
Qed.

Lemma numeral_value_app (s s' : string) : forall acc,
  numeral_value acc (s ++ s') =
  match numeral_value acc s with
  | Some a => numeral_value a s'
  | None => None
  end.
Proof.
  induction s as [|c s IH]; intros acc; [reflexivity|].
  rewrite append_cons. simpl.
  destruct (_ && _); [apply IH | reflexivity].
Qed.

Lemma lastDigits_value (k : nat) : forall n acc,
  numeral_value acc (lastDigits k n) = Some (acc * 10 ^ Z.of_nat k + n mod 10 ^ Z.of_nat k).
Proof.
  induction k as [|k IH]; intros n acc.
  - cbn. f_equal. rewrite Z.mod_1_r. lia.
  - cbn [lastDigits]. rewrite numeral_value_app, IH.
    rewrite digit_value by (apply Z.mod_pos_bound; lia).
    cbn [numeral_value]. f_equal.
    rewrite Nat2Z.inj_succ, Z.pow_succ_r by lia.
    assert (0 < 10 ^ Z.of_nat k) by (apply Z.pow_pos_nonneg; lia).
    rewrite (Z.rem_mul_r n 10 (10 ^ Z.of_nat k)) by lia.
    ring.
Qed.

Lemma lastDigits_length (k : nat) : forall n, String.length (lastDigits k n) = k.
Proof.
  induction k as [|k IH]; intros n; [reflexivity|].
  cbn [lastDigits]. rewrite length_append, IH. simpl. lia.
Qed.

Lemma lastDigits_split (b : nat) : forall a n,
  lastDigits (a + b) n = lastDigits a (n / 10 ^ Z.of_nat b) ++ lastDigits b n.
Proof.
  induction b as [|b IH]; intros a n.
  - rewrite Nat.add_0_r. cbn [lastDigits Z.of_nat]. rewrite Z.pow_0_r, Z.div_1_r.
    now rewrite append_empty_r.
  - replace (a + S b)%nat with (S (a + b)) by lia. cbn [lastDigits].
    rewrite IH, Nat2Z.inj_succ, Z.pow_succ_r by lia.
    rewrite Z.div_div by (try apply Z.pow_pos_nonneg; lia).
    now rewrite append_assoc.
Qed.

(** With enough fuel, [digits] prints a numeral without leading zero: the
    last [S k] digits of [n], where [S k] is the number of digits of [n]. *)
Lemma digits_lastDigits (fuel : nat) : forall n,
  (0 < fuel)%nat -> 0 <= n < 2 ^ Z.of_nat fuel ->
  exists k : nat,
    digits fuel n = lastDigits (S k) n /\ n < 10 ^ Z.of_nat (S k)
    /\ (k = O \/ 10 ^ Z.of_nat k <= n).
Proof.
  induction fuel as [|fuel IH]; intros n Hf Hn; [lia|].
  cbn [digits]. destruct (n <? 10) eqn:E.
  - apply Z.ltb_lt in E. exists O. cbn [lastDigits]. rewrite append_nil.
    rewrite Z.mod_small by lia. repeat split; lia.
  - apply Z.ltb_ge in E.
      rewrite Nat2Z.inj_succ, Z.pow_succ_r in Hn by lia.
      destruct (IH (n / 10)) as (k & Hd & Hlt & Hge).
      { destruct fuel; [simpl in Hn|]; lia. }
      { split; [apply Z.div_pos; lia|]. apply Z.div_lt_upper_bound; lia. }
      exists (S k). rewrite Hd. split; [reflexivity|].
      rewrite (Nat2Z.inj_succ (S k)), Z.pow_succ_r by lia.
      rewrite (Nat2Z.inj_succ k), Z.pow_succ_r by lia.
      rewrite Nat2Z.inj_succ, Z.pow_succ_r in Hlt by lia.
      pose proof (Z.div_mod n 10 ltac:(lia)) as Hdm.
      pose proof (Z.mod_pos_bound n 10 ltac:(lia)) as Hm.
      split; [lia|]. right. destruct Hge as [-> | Hge]; simpl; lia.
Qed.

Lemma toString_lastDigits (n : Z) :
  0 <= n ->
  exists k : nat,
    toString n = lastDigits (S k) n /\ n < 10 ^ Z.of_nat (S k)
    /\ (k = O \/ 10 ^ Z.of_nat k <= n).
Proof.
  intros Hn. unfold toString.
  replace (n <? 0) with false by (symmetry; apply Z.ltb_ge; lia).
  apply digits_lastDigits; [lia|]. split; [lia|].
  rewrite Nat2Z.inj_succ, Z2Nat.id by apply Z.log2_nonneg.
  destruct (Z.eq_dec n 0) as [-> | Hne]; [reflexivity|].
  apply Z.log2_spec. lia.
Qed.

Lemma skip_app (s s' : string) : skip (String.length s) (s ++ s') = s'.
Proof. induction s as [|c s IH]; [reflexivity|]. rewrite append_cons. apply IH. Qed.

Lemma slice_suffix (k : nat) (s s' : string) :
  (0 < k)%nat -> String.length s' = k -> slice (- Z.of_nat k) (s ++ s') = s'.
Proof.
  intros Hpos Hk. unfold slice. rewrite length_append, Hk.
  replace (- Z.of_nat k <? 0) with true by (symmetry; apply Z.ltb_lt; lia).
  match goal with
  | |- skip ?n _ = _ => replace n with (String.length s) by lia
  end.
  apply skip_app.
Qed.

Lemma slice_short (start : Z) (s : string) :
  start < 0 -> Z.of_nat (String.length s) <= - start -> slice start s = s.
Proof.
  intros Hk Hs. unfold slice.
  replace (start <? 0) with true by (symmetry; apply Z.ltb_lt; lia).
  match goal with
  | |- skip ?n _ = _ => now replace n with O by lia
  end.
Qed.

Lemma slice_tail (c : ascii) (s : string) : slice 1 (String c s) = s.
Proof.
  unfold slice. cbn [Z.ltb Z.compare].
  match goal with
  | |- skip ?n _ = _ => replace n with 1%nat by (cbn [String.length]; lia)
  end.
  reflexivity.
Qed.

Lemma toUpperCase_char (c : ascii) : toUpperCase (String c "") = String (upper c) "".
Proof. reflexivity. Qed.

(** The text of an id: the last ten characters of the numeral of the
    reading. *)
Lemma id_ten_digits (t : Z) :
  10 ^ 9 <= t -> slice (-10) (toString t) = lastDigits 10 t.
Proof.
  intros Ht. destruct (toString_lastDigits t) as (k & -> & Hlt & _); [lia|].
  assert (9 < Z.of_nat (S k)) as Hk.
  { apply (Z.pow_lt_mono_r_iff 10); lia. }
  replace (S k) with ((S k - 10) + 10)%nat by lia.
  rewrite lastDigits_split.
  apply (slice_suffix 10); [lia | apply lastDigits_length].
Qed.

Lemma id_value (t : Z) :
  0 <= t -> numeral_value 0 (slice (-10) (toString t)) = Some (t mod 10 ^ 10).
Proof.
  intros Ht. destruct (Z_lt_le_dec t (10 ^ 9)) as [Hs | Hl].
  - destruct (toString_lastDigits t Ht) as (k & -> & Hlt & Hge).
    assert (Z.of_nat k < 9) as Hk.
    { destruct Hge as [-> | Hge]; [lia|].
      apply (Z.pow_lt_mono_r_iff 10); lia. }
    rewrite slice_short by (rewrite ?lastDigits_length; lia).
    rewrite lastDigits_value, !Z.mod_small; [reflexivity|lia|lia].
  - rewrite id_ten_digits by assumption.
    now rewrite lastDigits_value.
Qed.

(** *** Dates *)

Lemma MonthFromTime_range (t : Z) : 0 <= MonthFromTime t <= 11.
Proof. unfold MonthFromTime. repeat destruct (_ <? _); lia. Qed.

(** The month table has a name at every month number. *)
Lemma month_name (t : Z) :
  exists name : string,
    nth_error months (Z.to_nat (MonthFromTime t)) = Some name
    /\ index_text months (MonthFromTime t) = name.
Proof.
  pose proof (MonthFromTime_range t) as Hr. unfold index_text.
  replace (MonthFromTime t <? 0) with false by (symmetry; apply Z.ltb_ge; lia).
  assert (Z.to_nat (MonthFromTime t) < 12)%nat as Hn by lia.
  destruct (Z.to_nat (MonthFromTime t)) as [|[|[|[|[|[|[|[|[|[|[|[|n]]]]]]]]]]]];
    try (eexists; split; reflexivity).
  lia.
Qed.

(** [YearFromTime t] is the year whose span of time values holds [t]. *)
Lemma YearFromTime_spec (t : Z) :
  TimeFromYear (YearFromTime t) <= t < TimeFromYear (YearFromTime t + 1).
Proof.
  unfold YearFromTime, TimeFromYear, DayFromYear, Day, msPerDay.
  repeat match goal with
         | |- context [?a <=? ?b] => destruct (Z.leb_spec a b)
         end;
    Z.div_mod_to_equations; lia.
Qed.

Lemma DayFromYear_succ (y : Z) : DayFromYear (y + 1) = DayFromYear y + DaysInYear y.
Proof.
  unfold DayFromYear, DaysInYear.
  repeat match goal with
         | |- context [?a =? ?b] => destruct (Z.eqb_spec a b)
         end; cbn [negb];
    Z.div_mod_to_equations; lia.
Qed.

Lemma DayWithinYear_range (t : Z) : 0 <= DayWithinYear t < 365 + InLeapYear t.
Proof.
  pose proof (YearFromTime_spec t) as Hy.
  unfold DayWithinYear, InLeapYear.
  unfold TimeFromYear in Hy. rewrite DayFromYear_succ in Hy.
  assert (DaysInYear (YearFromTime t) = 365 \/ DaysInYear (YearFromTime t) = 366) as Hd.
  { unfold DaysInYear. repeat destruct (negb _); auto. }
  unfold Day, msPerDay in *.
  destruct Hd as [Hd | Hd]; rewrite Hd in *; cbn [Z.eqb Pos.eqb];
    Z.div_mod_to_equations; lia.
Qed.

(** The day of the month is a day of a month. *)
Lemma DateFromTime_range (t : Z) : 1 <= DateFromTime t <= 31.
Proof.
  pose proof (DayWithinYear_range t) as Hd.
  assert (InLeapYear t = 0 \/ InLeapYear t = 1) as Hl.
  { unfold InLeapYear. destruct (_ =? _); auto. }
  unfold DateFromTime, MonthFromTime.
  repeat match goal with
         | |- context [?a <? ?b] => destruct (Z.ltb_spec a b)
         end; lia.
Qed.

(** *** Construction *)

Lemma new_Running_run (ll : number * number) (d du c : number) (st : state) :
  new_Running ll d du c st =
  (Normal (mkWorkout (clock (ticks st))
                     (slice (-10) (toString (clock (S (ticks st)))))
                     0%float ll d du "running" (Running c (calcPace du d))
                     ("Running on " ++ index_text months (getMonth (clock (ticks st)))
                      ++ " " ++ toString (getDate (clock (ticks st))))),
   advance 2 st).
Proof. reflexivity. Qed.

Lemma new_Cycling_run (ll : number * number) (d du e : number) (st : state) :
  new_Cycling ll d du e st =
  (Normal (mkWorkout (clock (ticks st))
                     (slice (-10) (toString (clock (S (ticks st)))))
                     0%float ll d du "cycling" (Cycling e (calcSpeed d du))
                     ("Cycling on " ++ index_text months (getMonth (clock (ticks st)))
                      ++ " " ++ toString (getDate (clock (ticks st))))),
   advance 2 st).
Proof. reflexivity. Qed.

(** *** The paths of the submit handler *)

(** Once the form was shown by a click on the map, the coordinates of a
    submission are there. *)
Lemma showForm_mapEvent (ll : number * number) (st : state) :
  mapEvent (snd (_showForm ll st)) = Some ll
  /\ hidden (form (snd (_showForm ll st))) = false.
Proof. split; reflexivity. Qed.

Arguments validInputs : simpl never.
Arguments allPositive : simpl never.

Ltac handler :=
  unfold _newWorkout, _hideForm, _setLocalStorage, set_workouts, set_form,
    set_localStorage, alert, emit, latlng, modify, gets, mbind, M_bind;
  cbn.

(** Without the click, a submission ends in the TypeError of reading the
    coordinates, before anything is validated or constructed. *)
Lemma submission_without_click (st : state) :
  mapEvent st = None ->
  _newWorkout st
  = (Throw TypeError,
     mkState (workouts st) None (form st) (localStorage st) (ticks st)
             (log st ++ [PreventDefault])).
Proof. intros Hmap. handler. now rewrite Hmap. Qed.

Lemma running_rejected (st : state) (ll : number * number) :
  mapEvent st = Some ll ->
  inputType (form st) = "running" ->
  validInputs [ToNumber (inputDistance (form st)); ToNumber (inputDuration (form st));
               ToNumber (inputCadence (form st))]
  && allPositive [ToNumber (inputDistance (form st)); ToNumber (inputDuration (form st));
                  ToNumber (inputCadence (form st))] = false ->
  _newWorkout st = (Normal tt, rejected st).
Proof.
  intros Hmap Htype Hbad. rewrite <- negb_true_iff, negb_andb in Hbad.
  unfold rejected. handler. rewrite Hmap, Htype. cbn. rewrite Hbad. cbn.
  unfold mret, M_ret. now rewrite <- app_assoc, <- Hmap.
Qed.

Lemma cycling_rejected (st : state) (ll : number * number) :
  mapEvent st = Some ll ->
  inputType (form st) = "cycling" ->
  validInputs [ToNumber (inputDistance (form st)); ToNumber (inputDuration (form st));
               ToNumber (inputElevation (form st))]
  && allPositive [ToNumber (inputDistance (form st)); ToNumber (inputDuration (form st))]
  = false ->
  _newWorkout st = (Normal tt, rejected st).
Proof.
  intros Hmap Htype Hbad. rewrite <- negb_true_iff, negb_andb in Hbad.
  unfold rejected. handler. rewrite Hmap, Htype. cbn. rewrite Hbad. cbn.
  unfold mret, M_ret. now rewrite <- app_assoc, <- Hmap.
Qed.

Lemma running_accepted (st : state) (ll : number * number) :
  mapEvent st = Some ll ->
  inputType (form st) = "running" ->
  validInputs [ToNumber (inputDistance (form st)); ToNumber (inputDuration (form st));
               ToNumber (inputCadence (form st))]
  && allPositive [ToNumber (inputDistance (form st)); ToNumber (inputDuration (form st));
                  ToNumber (inputCadence (form st))] = true ->
  exists w : Workout,
    new_Running ll (ToNumber (inputDistance (form st)))
                (ToNumber (inputDuration (form st)))
                (ToNumber (inputCadence (form st))) st
    = (Normal w, advance 2 st)
    /\ _newWorkout st = (Normal tt, accepted w st).
Proof.
  intros Hmap Htype Hok. rewrite <- negb_false_iff, negb_andb in Hok.
  eexists. split; [apply new_Running_run|].
  unfold accepted. handler. rewrite Hmap, Htype. cbn. rewrite Hok.
  rewrite new_Running_run. cbn.
  unfold mret, M_ret. now rewrite <- !app_assoc, <- Hmap, <- Htype.
Qed.

Lemma cycling_accepted (st : state) (ll : number * number) :
  mapEvent st = Some ll ->
  inputType (form st) = "cycling" ->
  validInputs [ToNumber (inputDistance (form st)); ToNumber (inputDuration (form st));
               ToNumber (inputElevation (form st))]
  && allPositive [ToNumber (inputDistance (form st)); ToNumber (inputDuration (form st))]
  = true ->
  exists w : Workout,
    new_Cycling ll (ToNumber (inputDistance (form st)))
                (ToNumber (inputDuration (form st)))
                (ToNumber (inputElevation (form st))) st
    = (Normal w, advance 2 st)
    /\ _newWorkout st = (Normal tt, accepted w st).
Proof.
  intros Hmap Htype Hok. rewrite <- negb_false_iff, negb_andb in Hok.
  eexists. split; [apply new_Cycling_run|].
  unfold accepted. handler. rewrite Hmap, Htype. cbn. rewrite Hok.
  rewrite new_Cycling_run. cbn.
  unfold mret, M_ret. now rewrite <- !app_assoc, <- Hmap, <- Htype.
Qed.

Lemma other_type_crashes (st : state) (ll : number * number) :
  mapEvent st = Some ll ->
  inputType (form st) <> "running" ->
  inputType (form st) <> "cycling" ->
  _newWorkout st = (Throw TypeError, crashed st).
Proof.
  intros Hmap Hr Hc. apply String.eqb_neq in Hr, Hc.
  unfold crashed. handler. rewrite Hmap, Hr. cbn. rewrite Hc. cbn.
  now rewrite <- Hmap.
Qed.

(** *** The validation boundary *)

(** C1. A submission of type "running" or "cycling", made with the
    coordinates of a click on the map, in which a required field is not
    finite (distance, duration, and cadence or elevation), or in which
    distance, duration or, for running, cadence is not above zero, ends with
    the alert "Inputs have to be positive numbers!": the collection and the
    storage are as before, and the clock has not been read, so no Workout was
    constructed. *)
Theorem C1_invalid_input_rejected (st : state) (ll : number * number) :
  mapEvent st = Some ll ->
  let f := form st in
  let distance := ToNumber (inputDistance f) in
  let duration := ToNumber (inputDuration f) in
  let cadence := ToNumber (inputCadence f) in
  let elevation := ToNumber (inputElevation f) in
  (inputType f = "running"
   /\ (Number_isFinite distance = false \/ Number_isFinite duration = false
       \/ Number_isFinite cadence = false
       \/ gt0 distance = false \/ gt0 duration = false \/ gt0 cadence = false))
  \/ (inputType f = "cycling"
      /\ (Number_isFinite distance = false \/ Number_isFinite duration = false
          \/ Number_isFinite elevation = false
          \/ gt0 distance = false \/ gt0 duration = false)) ->
  exists st' : state,
    _newWorkout st = (Normal tt, st')
    /\ log st' = (log st ++ [PreventDefault; Alert "Inputs have to be positive numbers!"])%list
    /\ workouts st' = workouts st
    /\ localStorage st' = localStorage st
    /\ ticks st' = ticks st.
Proof.
  intros Hmap f distance duration cadence elevation Hbad.
  exists (rejected st). split; [|repeat split].
  destruct Hbad as [[Htype Hbad] | [Htype Hbad]].
  - apply (running_rejected st ll Hmap Htype).
    unfold validInputs, allPositive. cbn [forallb].
    fold f distance duration cadence.
    repeat (destruct Hbad as [-> | Hbad]; [now rewrite ?andb_false_r|]).
    rewrite Hbad. now rewrite ?andb_false_r.
  - apply (cycling_rejected st ll Hmap Htype).
    unfold validInputs, allPositive. cbn [forallb].
    fold f distance duration elevation.
    repeat (destruct Hbad as [-> | Hbad]; [now rewrite ?andb_false_r|]).
    rewrite Hbad. now rewrite ?andb_false_r.
Qed.

(** C6. A cycling submission with finite distance, duration and elevation,
    and distance and duration above zero, passes the validation whatever the
    sign of the elevation: a Cycling instance with that elevation is
    constructed, appended and rendered, and no alert is shown. *)
Theorem C6_elevation_sign_not_checked (st : state) (ll : number * number) :
  mapEvent st = Some ll ->
  let f := form st in
  let dist := ToNumber (inputDistance f) in
  let dur := ToNumber (inputDuration f) in
  let elev := ToNumber (inputElevation f) in
  inputType f = "cycling" ->
  Number_isFinite dist = true -> gt0 dist = true ->
  Number_isFinite dur = true -> gt0 dur = true ->
  Number_isFinite elev = true ->
  exists (w : Workout) (st' : state),
    _newWorkout st = (Normal tt, st')
    /\ workouts st' = (workouts st ++ [Instance w])%list
    /\ log st' = (log st ++ [PreventDefault; Marker (Instance w); ListItem (Instance w)])%list
    /\ type w = "cycling"
    /\ extra w = Cycling elev (calcSpeed dist dur)
    /\ distance w = dist
    /\ duration w = dur
    /\ coords w = ll.
Proof.
  intros Hmap f dist dur elev Htype Hd Hd' Hdu Hdu' He.
  destruct (cycling_accepted st ll Hmap Htype) as (w & Hnew & Hrun).
  { unfold validInputs, allPositive. cbn [forallb].
    fold f dist dur elev. now rewrite Hd, Hd', Hdu, Hdu', He. }
  rewrite new_Cycling_run in Hnew. injection Hnew as <-.
  eexists. eexists. split; [exact Hrun|]. now repeat split.
Qed.

(** C7. A submission of either type whose distance is zero ends with the
    alert and with the clock unread: the constructors, which alone call
    [calcPace] and [calcSpeed], are not reached, so no division by a zero
    distance takes place; a submission that does construct a record has a
    distance other than zero. *)
Theorem C7_zero_distance_never_divides (st : state) (ll : number * number) :
  mapEvent st = Some ll ->
  inputType (form st) = "running" \/ inputType (form st) = "cycling" ->
  (PrimFloat.is_zero (ToNumber (inputDistance (form st))) = true ->
   exists st' : state,
     _newWorkout st = (Normal tt, st')
     /\ log st' = (log st ++ [PreventDefault; Alert message])%list
     /\ workouts st' = workouts st
     /\ ticks st' = ticks st)
  /\ (ticks (snd (_newWorkout st)) <> ticks st ->
      PrimFloat.is_zero (ToNumber (inputDistance (form st))) = false).
Proof.
  intros Hmap Htype.
  assert (PrimFloat.is_zero (ToNumber (inputDistance (form st))) = true ->
          _newWorkout st = (Normal tt, rejected st)) as Hrej.
  { intros Hz. apply zero_not_gt0 in Hz.
    destruct Htype as [Htype | Htype];
      [apply (running_rejected st ll Hmap Htype)
      |apply (cycling_rejected st ll Hmap Htype)];
      unfold allPositive; cbn [forallb]; rewrite Hz;
      now rewrite ?andb_false_r. }
  split.
  - intros Hz. exists (rejected st). now rewrite (Hrej Hz).
  - intros Hticks.
    destruct (PrimFloat.is_zero (ToNumber (inputDistance (form st)))) eqn:Hz;
      [|reflexivity].
    rewrite (Hrej eq_refl) in Hticks. now contradiction Hticks.
Qed.

(** C10, amended. A submission whose type is neither "running" nor
    "cycling" is not validated and shows no alert; it appends [undefined] to
    the collection, and the attempt to render its marker is a TypeError that
    ends the handler: nothing is rendered, the form stays as it is and the
    storage is not written. *)
Theorem C10_unknown_type_appends_undefined (st : state) (ll : number * number) :
  mapEvent st = Some ll ->
  inputType (form st) <> "running" ->
  inputType (form st) <> "cycling" ->
  exists st' : state,
    _newWorkout st = (Throw TypeError, st')
    /\ workouts st' = (workouts st ++ [Plain Undefined])%list
    /\ log st' = (log st ++ [PreventDefault])%list
    /\ form st' = form st
    /\ localStorage st' = localStorage st
    /\ ticks st' = ticks st.
Proof.
  intros Hmap Hr Hc. exists (crashed st).
  split; [apply (other_type_crashes st ll Hmap Hr Hc)|]. now repeat split.
Qed.

(** *** Workout records *)

(** C2. With distance, duration and cadence above zero, the construction of
    a Running completes, and the record carries, as its field [pace], the
    quotient of its duration by its distance, a distance that is not zero. *)
Theorem C2_running_pace (ll : number * number) (d du c : number) (st : state) :
  gt0 d = true -> gt0 du = true -> gt0 c = true ->
  exists (w : Workout) (st' : state),
    new_Running ll d du c st = (Normal w, st')
    /\ distance w = d /\ duration w = du /\ cadence w = Some c
    /\ allPositive [distance w; duration w; c] = true
    /\ PrimFloat.is_zero (distance w) = false
    /\ pace w = Some (duration w / distance w)%float.
Proof.
  intros Hd Hdu Hc. rewrite new_Running_run. eexists. eexists.
  split; [reflexivity|]. cbn [distance duration cadence pace extra].
  unfold allPositive. cbn [forallb]. rewrite Hd, Hdu, Hc.
  repeat split. now apply gt0_not_zero.
Qed.

(** C3. With distance and duration above zero, the construction of a
    Cycling completes, and the record carries, as its field [speed], its
    distance divided by the sixtieth of its duration; for 20 km in 60 min
    the speed is 20. *)
Theorem C3_cycling_speed (ll : number * number) (d du e : number) (st : state) :
  gt0 d = true -> gt0 du = true ->
  (exists (w : Workout) (st' : state),
     new_Cycling ll d du e st = (Normal w, st')
     /\ distance w = d /\ duration w = du /\ elevation w = Some e
     /\ allPositive [distance w; duration w] = true
     /\ speed w = Some (distance w / (duration w / 60))%float)
  /\ (exists (w : Workout) (st' : state),
        new_Cycling ll 20%float 60%float e st = (Normal w, st')
        /\ speed w = Some 20%float).
Proof.
  intros Hd Hdu. rewrite !new_Cycling_run. split; eexists; eexists;
    (split; [reflexivity|]); [|reflexivity].
  cbn [distance duration elevation speed extra].
  unfold allPositive. cbn [forallb]. rewrite Hd, Hdu. now repeat split.
Qed.

(** Whatever the tag, as long as it has a first letter, and whatever the
    date, [_setDescription] completes with the text of [described]. *)
Lemma described_at (date : Z) (c : ascii) (rest : string) (st : state) :
  exists name : string,
    nth_error months (Z.to_nat (getMonth date)) = Some name
    /\ _setDescription (String c rest) date st
       = (Normal (String (upper c) rest ++ " on " ++ name ++ " "
                  ++ toString (getDate date)), st).
Proof.
  destruct (month_name (LocalTime date)) as (name & Hnth & Hname).
  exists name. split; [exact Hnth|].
  unfold _setDescription. cbn [first_char]. unfold getMonth at 1.
  now rewrite Hname, slice_tail, toUpperCase_char.
Qed.

Lemma described_made (t : Z) (i : string) (k : number) (ll : number * number)
    (d du : number) (c : ascii) (rest : string) (e : Extra) :
  described (mkWorkout t i k ll d du (String c rest) e
               (String (upper c) rest ++ " on " ++ index_text months (getMonth t)
                ++ " " ++ toString (getDate t))).
Proof.
  destruct (month_name (LocalTime t)) as (name & Hnth & Hname).
  pose proof (MonthFromTime_range (LocalTime t)) as Hm.
  pose proof (DateFromTime_range (LocalTime t)) as Hd.
  exists c, rest, name. cbn [type date description].
  unfold getMonth at 1 2 3 4. unfold getDate at 1 2.
  rewrite Hname. repeat split; (lia || assumption).
Qed.

(** C4. The description of a record made by either constructor is its type
    tag with the first letter in upper case, " on ", the name that the table
    of twelve month names has at the month number of its date, a space and
    the day of the month of its date; for the tag "running" and a date on
    the 31st of the tenth month it is "Running on October 31". *)
Theorem C4_description (ll : number * number) (d du x : number) (st : state) :
  (exists (w : Workout) (st' : state),
     new_Running ll d du x st = (Normal w, st') /\ described w)
  /\ (exists (w : Workout) (st' : state),
        new_Cycling ll d du x st = (Normal w, st') /\ described w)
  /\ length months = 12%nat
  /\ (forall date : Z,
        getMonth date = 9 -> getDate date = 31 ->
        _setDescription "running" date st = (Normal "Running on October 31", st)).
Proof.
  split; [|split; [|split]].
  - rewrite new_Running_run. eexists. eexists. split; [reflexivity|].
    apply (described_made _ _ _ _ _ _ "r" "unning").
  - rewrite new_Cycling_run. eexists. eexists. split; [reflexivity|].
    apply (described_made _ _ _ _ _ _ "c" "ycling").
  - reflexivity.
  - intros date Hm Hd. unfold _setDescription. cbn [first_char].
    now rewrite Hm, Hd.
Qed.

(** C8. The id of a record made by either constructor is the text of the
    last ten digits of the reading that [Date.now()] took at its creation:
    its last ten characters, which denote the reading modulo 10^10, and
    exactly ten digits for every reading of at least ten digits; its date is
    the reading that [new Date()] took just before. *)
Theorem C8_id_and_date (ll : number * number) (d du x : number) (st : state) :
  0 <= clock (S (ticks st)) ->
  let held (w : Workout) : Prop :=
    date w = clock (ticks st)
    /\ id w = slice (-10) (toString (clock (S (ticks st))))
    /\ numeral_value 0 (id w) = Some (clock (S (ticks st)) mod 10 ^ 10)
    /\ (10 ^ 9 <= clock (S (ticks st)) ->
        id w = lastDigits 10 (clock (S (ticks st)))
        /\ String.length (id w) = 10%nat) in
  (exists (w : Workout) (st' : state),
     new_Running ll d du x st = (Normal w, st') /\ held w)
  /\ (exists (w : Workout) (st' : state),
        new_Cycling ll d du x st = (Normal w, st') /\ held w).
Proof.
  intros Ht held.
  assert (forall w, date w = clock (ticks st) ->
                    id w = slice (-10) (toString (clock (S (ticks st)))) ->
                    held w) as Hheld.
  { intros w Hdate Hid. unfold held. rewrite Hid.
    split; [exact Hdate|]. split; [reflexivity|].
    split; [now apply id_value|].
    intros Hten. rewrite id_ten_digits by exact Hten.
    split; [reflexivity | apply lastDigits_length]. }
  rewrite new_Running_run, new_Cycling_run.
  split; eexists; eexists; (split; [reflexivity|]); now apply Hheld.
Qed.

(** C9. A record made by either constructor has [clicks] 0, and [click]
    adds one to [clicks] and leaves every other field as it was: id, date,
    coords, distance, duration, type, description, and the fields of the
    subclass (cadence and pace, or elevation and speed). *)
Theorem C9_click_counts (ll : number * number) (d du x : number) (st : state)
    (this : Workout) :
  (exists (w : Workout) (st' : state),
     new_Running ll d du x st = (Normal w, st') /\ clicks w = 0%float)
  /\ (exists (w : Workout) (st' : state),
        new_Cycling ll d du x st = (Normal w, st') /\ clicks w = 0%float)
  /\ clicks (click this) = (clicks this + 1)%float
  /\ id (click this) = id this
  /\ date (click this) = date this
  /\ coords (click this) = coords this
  /\ distance (click this) = distance this
  /\ duration (click this) = duration this
  /\ type (click this) = type this
  /\ description (click this) = description this
  /\ extra (click this) = extra this
  /\ cadence (click this) = cadence this
  /\ pace (click this) = pace this
  /\ elevation (click this) = elevation this
  /\ speed (click this) = speed this.
Proof.
  rewrite new_Running_run, new_Cycling_run.
  split; [|split]; [eexists; eexists; split; reflexivity ..|].
  now repeat split.
Qed.

(** *** Persistence *)

Lemma stringify_array (items : list value) :
  JSON_stringify (Arr items)
  = Text (JArr (map (fun v => default JNull (SerializeJSONProperty v)) items)).
Proof. reflexivity. Qed.

Lemma read_back_Num (x : number) :
  Number_isFinite x = true ->
  read_back (Num x) (parsed (default JNull (SerializeJSONProperty (Num x)))).
Proof.
  intros Hf. cbn. rewrite Hf. cbn.
  unfold printed. destruct (PrimFloat.is_zero x) eqn:Hz.
  - now apply read_back_zero.
  - now apply read_back_number.
Qed.

(** A Number that is not finite is stored as [null]. *)
Lemma not_finite_null (x : number) :
  Number_isFinite x = false ->
  parsed (default JNull (SerializeJSONProperty (Num x))) = Null.
Proof. intros Hf. cbn. now rewrite Hf. Qed.

(** The plain record that the stored text of an instance is parsed to. *)
Lemma reload_instance (w : Workout) :
  Forall (fun x => Number_isFinite x = true) (numbers w) ->
  exists props : list (string * value),
    parsed (default JNull (SerializeJSONProperty (Obj (own_fields w)))) = Obj props
    /\ fields_read_back (own_fields w) props.
Proof.
  pose proof read_back_Num as Hnum. cbn in Hnum.
  destruct w as [t i k [lat lng] d du tag [c p | e v] text];
    cbn; intros Hfin;
    repeat match goal with
           | H : Forall _ (_ :: _) |- _ => apply Forall_cons_1 in H; destruct H
           end;
    eexists; (split; [reflexivity|]);
    repeat constructor; now apply Hnum.
Qed.

Lemma reload_instances (ws : list Workout) :
  Forall (fun w => Forall (fun x => Number_isFinite x = true) (numbers w)) ws ->
  exists ps : list (list (string * value)),
    map (fun w => parsed (default JNull (SerializeJSONProperty (Obj (own_fields w))))) ws
    = map Obj ps
    /\ length ps = length ws
    /\ Forall2 (fun w props => fields_read_back (own_fields w) props) ws ps.
Proof.
  induction ws as [|w ws IH]; intros Hfin.
  - exists []. repeat split. constructor.
  - apply Forall_cons_1 in Hfin. destruct Hfin as [Hw Hws].
    destruct (IH Hws) as (ps & Hmap & Hlen & Hall).
    destruct (reload_instance w Hw) as (props & Hrel & Hprops).
    exists (props :: ps). cbn [map length]. rewrite Hrel, Hmap, Hlen.
    repeat split. now constructor.
Qed.

Lemma renderWorkout_workouts (e : entry) (st : state) :
  workouts (snd (_renderWorkout e st)) = workouts st.
Proof.
  unfold _renderWorkout, throw, emit, modify.
  repeat (match goal with
          | |- context [match ?x with _ => _ end] => destruct x
          end; try reflexivity).
Qed.

Lemma forEach_render_workouts (l : list entry) : forall st : state,
  workouts (snd (forEach _renderWorkout l st)) = workouts st.
Proof.
  induction l as [|e l IH]; intros st; [reflexivity|].
  cbn [forEach]. unfold mbind, M_bind.
  pose proof (renderWorkout_workouts e st) as He.
  destruct (_renderWorkout e st) as [[[]|err] st1]; cbn [snd] in *.
  - now rewrite IH.
  - exact He.
Qed.

(** A field that the validation admitted as a finite Number above zero is
    read back as the same Number. *)
Lemma read_back_positive (x : number) (v : value) :
  Number_isFinite x = true -> gt0 x = true -> read_back (Num x) v -> v = Num x.
Proof.
  intros Hf Hp Hr. apply gt0_not_zero in Hp.
  inversion Hr; subst; congruence.
Qed.

(** C5, amended. Storing a collection of N instances whose Number fields
    are finite under the key "workouts", and reading the collection back from
    a store that holds this item, yields N plain records with the fields of
    the originals, under the same names and in the same order; every string
    and every Number is identical to the original's (a negative zero is read
    as 0), and the date is the ISO string of the original Date. *)
Theorem C5_reload (ws : list Workout) (st st' : state) :
  workouts st = map Instance ws ->
  Forall (fun w => Forall (fun x => Number_isFinite x = true) (numbers w)) ws ->
  localStorage st' = localStorage (snd (_setLocalStorage st)) ->
  exists (j : json) (ps : list (list (string * value))),
    localStorage st' !! "workouts" = Some (Text j)
    /\ workouts (snd (_getLocalStorage st')) = map (fun props => Plain (Obj props)) ps
    /\ length ps = length ws
    /\ Forall2 (fun w props => fields_read_back (own_fields w) props) ws ps.
Proof.
  intros Hws Hfin Hls.
  destruct (reload_instances ws Hfin) as (ps & Hmap & Hlen & Hall).
  assert (localStorage st' !! "workouts"
          = Some (Text (JArr (map (fun v => default JNull (SerializeJSONProperty v))
                                  (map entry_value (map Instance ws)))))) as Hitem.
  { rewrite Hls. unfold _setLocalStorage, set_localStorage, modify, gets, mbind, M_bind.
    cbn [snd localStorage]. rewrite lookup_insert_eq, Hws. now rewrite stringify_array. }
  eexists. exists ps. split; [exact Hitem|]. split; [|now split].
  unfold _getLocalStorage, JSON_parse_item, set_workouts, modify, gets, mbind, M_bind.
  rewrite Hitem. cbn [mret M_ret parsed falsy].
  rewrite forEach_render_workouts. cbn [workouts].
  rewrite !map_map. cbn [entry_value].
  rewrite <- (map_map Obj Plain), <- Hmap. now rewrite map_map.
Qed.

(** *** The submit handler, whatever the submission *)

(** The four ways a submission ends. *)
Lemma newWorkout_outcomes (st : state) :
  (mapEvent st = None /\ _newWorkout st = (Throw TypeError, unclicked st))
  \/ (exists ll : number * number,
        mapEvent st = Some ll
        /\ (((inputType (form st) = "running" \/ inputType (form st) = "cycling")
             /\ (_newWorkout st = (Normal tt, rejected st)
                 \/ exists w : Workout,
                      _newWorkout st = (Normal tt, accepted w st)
                      /\ type w = inputType (form st)
                      /\ coords w = ll))
            \/ (inputType (form st) <> "running"
                /\ inputType (form st) <> "cycling"
                /\ _newWorkout st = (Throw TypeError, crashed st)))).
Proof.
  destruct (mapEvent st) as [ll|] eqn:Hmap.
  2: { left. split; [reflexivity|]. now apply submission_without_click. }
  right. exists ll. split; [reflexivity|].
  destruct (String.eqb_spec (inputType (form st)) "running") as [Hr | Hr].
  - left. split; [now left|].
    destruct (validInputs [ToNumber (inputDistance (form st));
                           ToNumber (inputDuration (form st));
                           ToNumber (inputCadence (form st))]
              && allPositive [ToNumber (inputDistance (form st));
                              ToNumber (inputDuration (form st));
                              ToNumber (inputCadence (form st))]) eqn:Hv.
    + right.
      destruct (running_accepted st ll Hmap Hr Hv) as (w & Hnew & Hrun).
      exists w. split; [exact Hrun|].
      rewrite new_Running_run in Hnew. injection Hnew as <-.
      now rewrite Hr.
    + left. now apply (running_rejected st ll).
  - destruct (String.eqb_spec (inputType (form st)) "cycling") as [Hc | Hc].
    + left. split; [now right|].
      destruct (validInputs [ToNumber (inputDistance (form st));
                             ToNumber (inputDuration (form st));
                             ToNumber (inputElevation (form st))]
                && allPositive [ToNumber (inputDistance (form st));
                                ToNumber (inputDuration (form st))]) eqn:Hv.
      * right.
        destruct (cycling_accepted st ll Hmap Hc Hv) as (w & Hnew & Hrun).
        exists w. split; [exact Hrun|].
        rewrite new_Cycling_run in Hnew. injection Hnew as <-.
        now rewrite Hc.
      * left. now apply (cycling_rejected st ll).
    + right. split; [exact Hr|]. split; [exact Hc|].
      now apply (other_type_crashes st ll).
Qed.

(** X1. A submission never removes, replaces or reorders a workout: the
    collection after it is the collection before it, followed by at most one
    new entry. *)
Theorem X1_collection_only_grows (st : state) :
  exists tail : list entry,
    workouts (snd (_newWorkout st)) = (workouts st ++ tail)%list
    /\ (length tail <= 1)%nat.
Proof.
  destruct (newWorkout_outcomes st)
    as [[_ ->] | (ll & _ & [(_ & [-> | (w & -> & _)]) | (_ & _ & ->)])];
    cbn [snd].
  - exists []. split; [now rewrite app_nil_r | cbn; lia].
  - exists []. split; [now rewrite app_nil_r | cbn; lia].
  - exists [Instance w]. split; [reflexivity | cbn; lia].
  - exists [Plain Undefined]. split; [reflexivity | cbn; lia].
Qed.

(** X2. A submission touches no item of the store but the one under
    "workouts", and it writes that one only when it completes with an
    instance appended, the item being then the text of the new collection. *)
Theorem X2_store_only_workouts (st : state) :
  (forall k : string,
     k <> "workouts" ->
     localStorage (snd (_newWorkout st)) !! k = localStorage st !! k)
  /\ (localStorage (snd (_newWorkout st)) = localStorage st
      \/ (fst (_newWorkout st) = Normal tt
          /\ in_sync (snd (_newWorkout st))
          /\ exists w : Workout,
               workouts (snd (_newWorkout st)) = (workouts st ++ [Instance w])%list)).
Proof.
  destruct (newWorkout_outcomes st)
    as [[_ ->] | (ll & _ & [(_ & [-> | (w & -> & _)]) | (_ & _ & ->)])];
    cbn [snd fst localStorage accepted rejected crashed unclicked];
    (split; [intros k Hk | ]); try reflexivity; try (now left).
  - now rewrite lookup_insert_ne.
  - right. split; [reflexivity|]. split; [|now exists w].
    unfold in_sync. cbn [localStorage workouts]. apply lookup_insert_eq.
Qed.

(** X3. A submission that completes keeps the store in step with the
    collection: if the item under "workouts" was the text of the collection
    before, it is the text of the collection after. *)
Theorem X3_store_in_sync (st : state) :
  in_sync st ->
  fst (_newWorkout st) = Normal tt ->
  in_sync (snd (_newWorkout st)).
Proof.
  intros Hsync.
  destruct (newWorkout_outcomes st)
    as [[_ ->] | (ll & _ & [(_ & [-> | (w & -> & _)]) | (_ & _ & ->)])];
    cbn [snd fst]; intros Hn; try discriminate.
  - exact Hsync.
  - unfold in_sync, accepted. cbn [localStorage workouts].
    apply lookup_insert_eq.
Qed.

(** X4. A running submission with finite distance, duration and cadence,
    all above zero, is accepted: a Running instance with these values, the
    coordinates of the click and the pace is appended and rendered, the four
    inputs are emptied, the form is hidden with its type kept, and the whole
    collection is stored. *)
Theorem X4_valid_running_accepted (st : state) (ll : number * number) :
  mapEvent st = Some ll ->
  let f := form st in
  let dist := ToNumber (inputDistance f) in
  let dur := ToNumber (inputDuration f) in
  let cad := ToNumber (inputCadence f) in
  inputType f = "running" ->
  Number_isFinite dist = true -> gt0 dist = true ->
  Number_isFinite dur = true -> gt0 dur = true ->
  Number_isFinite cad = true -> gt0 cad = true ->
  exists (w : Workout) (st' : state),
    _newWorkout st = (Normal tt, st')
    /\ workouts st' = (workouts st ++ [Instance w])%list
    /\ log st' = (log st ++ [PreventDefault; Marker (Instance w); ListItem (Instance w)])%list
    /\ form st' = mkForm "running" "" "" "" "" true
    /\ in_sync st'
    /\ type w = "running"
    /\ extra w = Running cad (calcPace dur dist)
    /\ distance w = dist /\ duration w = dur /\ coords w = ll
    /\ clicks w = 0%float.
Proof.
  intros Hmap f dist dur cad Htype Hd Hd' Hdu Hdu' Hc Hc'.
  destruct (running_accepted st ll Hmap Htype) as (w & Hnew & Hrun).
  { unfold validInputs, allPositive. cbn [forallb].
    fold f dist dur cad. now rewrite Hd, Hd', Hdu, Hdu', Hc, Hc'. }
  rewrite new_Running_run in Hnew. injection Hnew as <-.
  eexists. eexists. split; [exact Hrun|].
  unfold accepted, in_sync. cbn [workouts log form localStorage].
  fold f. rewrite Htype, lookup_insert_eq. now repeat split.
Qed.

(** X5. The only error of a submission is a TypeError, and it arises
    exactly when no click on the map has set the coordinates or the type is
    neither "running" nor "cycling"; in every other case the handler
    completes. *)
Theorem X5_submission_errors (st : state) :
  (fst (_newWorkout st) = Normal tt \/ fst (_newWorkout st) = Throw TypeError)
  /\ (fst (_newWorkout st) = Throw TypeError
      <-> mapEvent st = None
          \/ (inputType (form st) <> "running" /\ inputType (form st) <> "cycling")).
Proof.
  destruct (newWorkout_outcomes st)
    as [[Hmap ->] | (ll & Hmap & [(Ht & [-> | (w & -> & _)]) | (Hr & Hc & ->)])];
    cbn [fst]; (split; [auto|]); (split; [try discriminate; auto|]);
    try (intros _; reflexivity);
    intros [Hn | [Hr Hc]]; try congruence; destruct Ht; congruence.
Qed.

(** X17. After a click on the map at [ll] has shown the form, a submission
    of type "running" or "cycling" completes, the record it appends, if any,
    has the coordinates [ll], and the click stays in force for the next
    submission. *)
Theorem X17_coordinates_of_click (ll : number * number) (st : state) :
  let st1 := snd (_showForm ll st) in
  hidden (form st1) = false
  /\ (inputType (form st) = "running" \/ inputType (form st) = "cycling" ->
      fst (_newWorkout st1) = Normal tt)
  /\ (forall w : Workout,
        workouts (snd (_newWorkout st1)) = (workouts st ++ [Instance w])%list ->
        coords w = ll)
  /\ mapEvent (snd (_newWorkout st1)) = Some ll.
Proof.
  intros st1.
  assert (mapEvent st1 = Some ll) as Hmap by reflexivity.
  assert (workouts st1 = workouts st) as Hws by reflexivity.
  assert (inputType (form st1) = inputType (form st)) as Hty by reflexivity.
  split; [reflexivity|].
  destruct (newWorkout_outcomes st1)
    as [[Hnone _] | (ll' & Hmap' & [(_ & [-> | (w' & -> & _ & Hll)]) | (Hr & Hc & ->)])];
    [congruence|..]; cbn [fst snd workouts mapEvent rejected accepted crashed];
    rewrite ?Hws, ?Hty in *; (split; [|split]); try exact Hmap;
    try (intros _; reflexivity).
  - intros w Hw. apply (f_equal (@length entry)) in Hw.
    rewrite length_app in Hw. cbn in Hw. lia.
  - intros w Hw. apply app_inj_tail in Hw. destruct Hw as [_ Hw].
    injection Hw as <-. congruence.
  - intros [Ht | Ht]; congruence.
  - intros w Hw. apply app_inj_tail in Hw. destruct Hw as [_ Hw]. discriminate.
Qed.

(** *** Loading the page *)

(** Rendering a list entry only adds to what the page shows. *)
Lemma renderWorkout_frame (e : entry) (st : state) :
  exists evs : list event,
    snd (_renderWorkout e st)
    = mkState (workouts st) (mapEvent st) (form st) (localStorage st) (ticks st)
              (log st ++ evs).
Proof.
  assert (st = mkState (workouts st) (mapEvent st) (form st) (localStorage st)
                       (ticks st) (log st ++ [])) as Hsame.
  { rewrite app_nil_r. now destruct st. }
  unfold _renderWorkout, throw, emit, modify.
  repeat (match goal with
          | |- context [match ?x with _ => _ end] => destruct x
          end;
          try (exists []; exact Hsame);
          try (eexists; reflexivity)).
Qed.

Lemma forEach_render_frame (l : list entry) : forall st : state,
  exists evs : list event,
    snd (forEach _renderWorkout l st)
    = mkState (workouts st) (mapEvent st) (form st) (localStorage st) (ticks st)
              (log st ++ evs).
Proof.
  induction l as [|e l IH]; intros st.
  - exists []. rewrite app_nil_r. now destruct st.
  - cbn [forEach]. unfold mbind, M_bind.
    destruct (renderWorkout_frame e st) as (evs & He).
    destruct (_renderWorkout e st) as [[[]|err] st1]; cbn [snd] in *.
    + destruct (IH st1) as (evs' & ->). rewrite He. cbn.
      exists (evs ++ evs')%list. now rewrite app_assoc.
    + now exists evs.
Qed.

Lemma load_without_item (st : state) :
  localStorage st !! "workouts" = None -> _getLocalStorage st = (Normal tt, st).
Proof.
  intros Hnone. unfold _getLocalStorage, JSON_parse_item, gets, mbind, M_bind.
  now rewrite Hnone.
Qed.

(** X6. Loading a page over a store that has no item under "workouts", or
    one whose text denotes a value that counts as false ([null], [false],
    0, the empty string), changes nothing: no workout, nothing rendered, no
    error. *)
Theorem X6_load_nothing_stored (st : state) :
  (localStorage st !! "workouts" = None -> _getLocalStorage st = (Normal tt, st))
  /\ (forall j : json,
        localStorage st !! "workouts" = Some (Text j) ->
        falsy (parsed j) = true ->
        _getLocalStorage st = (Normal tt, st)).
Proof.
  split; [intros Hnone | intros j Hj Hfalsy];
    unfold _getLocalStorage, JSON_parse_item, gets, mbind, M_bind.
  - now rewrite Hnone.
  - rewrite Hj. cbn [mret M_ret]. now rewrite Hfalsy.
Qed.

(** X7. Loading a page over a stored string that is no JSON text ends in a
    SyntaxError, and over a text that denotes neither an array nor a value
    that counts as false, in a TypeError; in both cases nothing is rendered
    and the store is as it was. *)
Theorem X7_load_errors (st : state) :
  (forall s : string,
     localStorage st !! "workouts" = Some (NotJSON s) ->
     _getLocalStorage st = (Throw SyntaxError, st))
  /\ (forall j : json,
        localStorage st !! "workouts" = Some (Text j) ->
        falsy (parsed j) = false ->
        (forall items : list json, j <> JArr items) ->
        fst (_getLocalStorage st) = Throw TypeError
        /\ log (snd (_getLocalStorage st)) = log st
        /\ localStorage (snd (_getLocalStorage st)) = localStorage st).
Proof.
  split; [intros s Hs | intros j Hj Hfalsy Harr];
    unfold _getLocalStorage, JSON_parse_item, gets, mbind, M_bind.
  - now rewrite Hs.
  - rewrite Hj. cbn [mret M_ret]. rewrite Hfalsy.
    destruct j as [| b | x | s | items | members]; cbn; try discriminate Hfalsy;
      try (now repeat split).
    now contradiction (Harr items).
Qed.

Lemma load_stored (st st' : state) :
  localStorage st' = localStorage (snd (_setLocalStorage st)) ->
  _getLocalStorage st'
  = forEach _renderWorkout (map read_entry (workouts st))
      (mkState (map read_entry (workouts st)) (mapEvent st') (form st')
               (localStorage st') (ticks st') (log st')).
Proof.
  intros Hls.
  assert (localStorage st' !! "workouts"
          = Some (Text (JArr (map (fun v => default JNull (SerializeJSONProperty v))
                                  (map entry_value (workouts st)))))) as Hitem.
  { rewrite Hls. unfold _setLocalStorage, set_localStorage, modify, gets, mbind, M_bind.
    cbn [snd localStorage]. rewrite lookup_insert_eq. now rewrite stringify_array. }
  unfold _getLocalStorage, JSON_parse_item, set_workouts, modify, gets, mbind, M_bind.
  rewrite Hitem. cbn [mret M_ret parsed falsy workouts].
  now rewrite !map_map.
Qed.

Lemma render_read_instance (w : Workout) (st : state) :
  tagged w ->
  Forall (fun x => Number_isFinite x = true) (numbers w) ->
  _renderWorkout (read_entry (Instance w)) st
  = emit (ListItem (read_entry (Instance w))) st.
Proof.
  destruct w as [t i k [lat lng] d du tag [c p | e v] text];
    unfold tagged, read_entry; cbn; intros -> Hfin;
    repeat match goal with
           | H : Forall _ (_ :: _) |- _ => apply Forall_cons_1 in H; destruct H
           end;
    repeat match goal with
           | H : Number_isFinite _ = true |- _ => rewrite H; clear H
           end;
    reflexivity.
Qed.

Lemma render_unrenderable (e : entry) (st : state) :
  unrenderable e ->
  _renderWorkout (read_entry e) st = (Throw TypeError, st).
Proof.
  destruct e as [[t i k [lat lng] d du tag [c p | e v] text] | v];
    unfold unrenderable, read_entry; cbn.
  - intros [Hp ->]. cbn. rewrite Hp. reflexivity.
  - intros [Hv ->]. cbn. rewrite Hv. reflexivity.
  - intros ->. reflexivity.
Qed.

Lemma renderWorkout_errors (e : entry) (st : state) :
  fst (_renderWorkout e st) = Normal tt \/ fst (_renderWorkout e st) = Throw TypeError.
Proof.
  unfold _renderWorkout, throw, emit, modify.
  repeat (match goal with
          | |- context [match ?x with _ => _ end] => destruct x
          end; auto).
Qed.

Lemma forEach_render_throws (l : list entry) :
  Exists (fun e => forall st, fst (_renderWorkout e st) = Throw TypeError) l ->
  forall st : state, fst (forEach _renderWorkout l st) = Throw TypeError.
Proof.
  induction l as [|e l IH]; intros Hex st.
  - inversion Hex.
  - cbn [forEach]. unfold mbind, M_bind.
    pose proof (renderWorkout_errors e st) as He.
    destruct (_renderWorkout e st) as [[[]|err] st1] eqn:Hrun; cbn [fst] in *.
    + apply IH. inversion Hex as [? ? Hhead | ? ? Htail]; subst; [|exact Htail].
      specialize (Hhead st). rewrite Hrun in Hhead. discriminate.
    + destruct He as [He | He]; [discriminate | exact He].
Qed.

Lemma forEach_emit (f : entry -> event) (l : list entry) :
  forall (k : entry -> M unit) (st : state),
    Forall (fun e => forall st0, k e st0 = emit (f e) st0) l ->
    forEach k l st
    = (Normal tt,
       mkState (workouts st) (mapEvent st) (form st) (localStorage st) (ticks st)
               (log st ++ map f l)).
Proof.
  induction l as [|e l IH]; intros k st Hall.
  - cbn. rewrite app_nil_r. now destruct st.
  - apply Forall_cons_1 in Hall. destruct Hall as [He Hl].
    cbn [forEach]. unfold mbind, M_bind. rewrite He.
    unfold emit, modify. rewrite (IH k _ Hl). cbn.
    now rewrite <- app_assoc.
Qed.

(** X8. A page loaded over the stored text of a collection of instances
    with finite Number fields completes: the collection is the records read
    back, each is shown in the list, in the order of the collection, and
    when the map arrives each gets its marker, in the same order. *)
Theorem X8_load_renders_all (ws : list Workout) (st st' : state) :
  workouts st = map Instance ws ->
  Forall tagged ws ->
  Forall (fun w => Forall (fun x => Number_isFinite x = true) (numbers w)) ws ->
  localStorage st' = localStorage (snd (_setLocalStorage st)) ->
  let records := map (fun w => read_entry (Instance w)) ws in
  exists st1 st2 : state,
    new_App st' = (Normal tt, st1)
    /\ workouts st1 = records
    /\ log st1 = (log st' ++ map ListItem records)%list
    /\ _loadMap st1 = (Normal tt, st2)
    /\ workouts st2 = records
    /\ log st2 = (log st1 ++ map Marker records)%list.
Proof.
  intros Hws Htag Hfin Hls records.
  unfold new_App. rewrite (load_stored st st' Hls), Hws, map_map.
  fold records.
  rewrite (forEach_emit ListItem).
  2: { unfold records. apply Forall_map.
       rewrite Forall_forall in Htag, Hfin. apply Forall_forall.
       intros w Hw st0. apply render_read_instance; auto. }
  eexists. eexists. split; [reflexivity|]. cbn [workouts log].
  split; [reflexivity|]. split; [reflexivity|].
  unfold _loadMap, gets, mbind, M_bind. cbn [workouts].
  rewrite (forEach_emit Marker).
  2: { unfold records. apply Forall_map. apply Forall_forall.
       intros w _ st0. reflexivity. }
  split; [reflexivity|]. cbn [workouts log]. now split.
Qed.

(** X9. If the collection holds [undefined], or an instance whose pace or
    speed is not finite, then a page loaded over its stored text ends in a
    TypeError: the App is not made. *)
Theorem X9_load_crashes (st st' : state) :
  Exists unrenderable (workouts st) ->
  localStorage st' = localStorage (snd (_setLocalStorage st)) ->
  fst (new_App st') = Throw TypeError.
Proof.
  intros Hex Hls. unfold new_App. rewrite (load_stored st st' Hls).
  apply forEach_render_throws. apply Exists_exists.
  apply Exists_exists in Hex. destruct Hex as (e & Hin & Hbad).
  exists (read_entry e).
  split; [apply list_elem_of_In, in_map; now apply list_elem_of_In|].
  intros st0. now rewrite render_unrenderable.
Qed.

Lemma printed_finite (x : number) :
  Number_isFinite x = true ->
  Number_isFinite (printed x) = true /\ printed (printed x) = printed x.
Proof.
  intros Hf. unfold printed. destruct (PrimFloat.is_zero x) eqn:Hz.
  - split; reflexivity.
  - rewrite Hf, Hz. now split.
Qed.

(** The text of a value that was read from a text is that text. *)
Lemma serialize_parsed (v : value) : forall j : json,
  SerializeJSONProperty v = Some j -> SerializeJSONProperty (parsed j) = Some j.
Proof.
  revert v. fix IH 1. intros v j Hj.
  assert (forall v' : value,
            (forall j', SerializeJSONProperty v' = Some j' ->
                        SerializeJSONProperty (parsed j') = Some j') ->
            default JNull (SerializeJSONProperty
                             (parsed (default JNull (SerializeJSONProperty v'))))
            = default JNull (SerializeJSONProperty v')) as Hitem.
  { intros v' Hv'. destruct (SerializeJSONProperty v') as [j'|] eqn:E; cbn.
    - now rewrite (Hv' j' eq_refl).
    - reflexivity. }
  destruct v as [| | b | x | s | t | items | props]; cbn in Hj;
    try discriminate; injection Hj as <-; try reflexivity.
  - destruct (Number_isFinite x) eqn:Hf; [|reflexivity].
    destruct (printed_finite x Hf) as [Hf' Hp]. cbn. now rewrite Hf', Hp.
  - cbn. do 2 f_equal. rewrite !map_map.
    induction items as [|v' items IHitems]; [reflexivity|].
    cbn [map]. f_equal; [|exact IHitems].
    apply Hitem. exact (IH v').
  - cbn. do 2 f_equal.
    induction props as [|[k v'] props IHprops]; [reflexivity|].
    destruct (SerializeJSONProperty v') as [j'|] eqn:E.
    + cbn [map fst snd]. rewrite (IH v' j' E). f_equal. exact IHprops.
    + exact IHprops.
Qed.

(** X10. What was stored once is stored the same again: the collection
    that a page reads from the stored text of any collection has that very
    text as its own. *)
Theorem X10_stored_text_stable (st st' : state) :
  localStorage st' = localStorage (snd (_setLocalStorage st)) ->
  localStorage (snd (_setLocalStorage (snd (new_App st')))) !! "workouts"
  = localStorage st' !! "workouts".
Proof.
  intros Hls. unfold new_App. rewrite (load_stored st st' Hls).
  match goal with
  | |- context [forEach _renderWorkout ?l ?s] =>
      destruct (forEach_render_frame l s) as (evs & ->)
  end.
  cbn [workouts mapEvent form localStorage ticks log].
  rewrite Hls.
  unfold _setLocalStorage, set_localStorage, modify, gets, mbind, M_bind.
  cbn [snd localStorage workouts]. rewrite !lookup_insert_eq. f_equal.
  rewrite !stringify_array. do 2 f_equal. rewrite !map_map.
  apply map_ext. intros e. unfold read_entry. cbn [entry_value].
  destruct (SerializeJSONProperty (entry_value e)) as [j|] eqn:E; cbn.
  - now rewrite (serialize_parsed _ j E).
  - reflexivity.
Qed.

(** X11. [reset] leaves an empty App whatever the store held under
    "workouts": no workout, nothing rendered, no item under "workouts"; the
    other items of the store are as they were. *)
Theorem X11_reset_empties (st : state) :
  exists st' : state,
    reset st = (Normal tt, st')
    /\ workouts st' = []
    /\ log st' = []
    /\ mapEvent st' = None
    /\ localStorage st' !! "workouts" = None
    /\ forall k : string, k <> "workouts" -> localStorage st' !! k = localStorage st !! k.
Proof.
  eexists. split.
  - unfold reset, new_App. apply load_without_item.
    unfold reloaded. cbn [localStorage]. apply lookup_delete_eq.
  - unfold reloaded. cbn. repeat split; [apply lookup_delete_eq|].
    intros k Hk. now apply lookup_delete_ne.
Qed.

(** *** Ids *)

Lemma made_id (st : state) (w : Workout) :
  made st w -> id w = slice (-10) (toString (clock (S (ticks st)))).
Proof.
  intros (ll & d & du & x & st' & [Hrun | Hrun]);
    [rewrite new_Running_run in Hrun | rewrite new_Cycling_run in Hrun];
    now injection Hrun as <-.
Qed.

Lemma lastDigits_mod (k : nat) : forall n m : Z,
  lastDigits k (n + 10 ^ Z.of_nat k * m) = lastDigits k n.
Proof.
  induction k as [|k IH]; intros n m; [reflexivity|].
  cbn [lastDigits]. rewrite Nat2Z.inj_succ, Z.pow_succ_r by lia.
  replace (n + 10 * 10 ^ Z.of_nat k * m) with (n + (10 ^ Z.of_nat k * m) * 10) by ring.
  rewrite Z.div_add, Z.mod_add by lia. now rewrite IH.
Qed.

(** X12. Two records made at readings of [Date.now()] that differ, but by
    less than 10^10 ms, have different ids. *)
Theorem X12_ids_differ (st1 st2 : state) (w1 w2 : Workout) :
  0 <= clock (S (ticks st1)) < clock (S (ticks st2)) ->
  clock (S (ticks st2)) < clock (S (ticks st1)) + 10 ^ 10 ->
  made st1 w1 -> made st2 w2 ->
  id w1 <> id w2.
Proof.
  intros Ht1 Ht2 Hw1 Hw2 Heq.
  rewrite (made_id st1 w1 Hw1), (made_id st2 w2 Hw2) in Heq.
  pose proof (id_value (clock (S (ticks st1))) ltac:(lia)) as H1.
  pose proof (id_value (clock (S (ticks st2))) ltac:(lia)) as H2.
  rewrite Heq, H2 in H1. injection H1 as Hmod.
  change (10 ^ 10) with 10000000000 in *.
  revert Hmod. Z.div_mod_to_equations. lia.
Qed.

(** X13. Two records made at readings of at least ten digits that differ by
    a multiple of 10^10 ms have the same id. *)
Theorem X13_ids_repeat (st1 st2 : state) (w1 w2 : Workout) (n : Z) :
  10 ^ 9 <= clock (S (ticks st1)) ->
  0 <= n ->
  clock (S (ticks st2)) = clock (S (ticks st1)) + 10 ^ 10 * n ->
  made st1 w1 -> made st2 w2 ->
  id w1 = id w2.
Proof.
  intros Ht1 Hn Ht2 Hw1 Hw2.
  rewrite (made_id st1 w1 Hw1), (made_id st2 w2 Hw2), Ht2.
  assert (0 <= 10 ^ 10 * n) by (apply Z.mul_nonneg_nonneg; lia).
  rewrite (id_ten_digits (clock (S (ticks st1)))) by exact Ht1.
  rewrite id_ten_digits by lia.
  pose proof (lastDigits_mod 10 (clock (S (ticks st1))) n) as Hm.
  change (Z.of_nat 10) with 10 in Hm.
  symmetry. exact Hm.
Qed.

(** *** Clicks in the list *)

Lemma has_id_spec (i : string) (e : entry) (st : state) :
  has_id i e st
  = if nullish e then (Throw TypeError, st)
    else (Normal (bool_decide (id_of e = Some i)), st).
Proof.
  assert (forall s : string, String.eqb s i = bool_decide (Some s = Some i)) as Heqb.
  { intros s. destruct (String.eqb_spec s i) as [-> | Hne].
    - now rewrite bool_decide_eq_true_2.
    - rewrite bool_decide_eq_false_2; [reflexivity | congruence]. }
  destruct e as [w | v]; cbn; [now rewrite Heqb|].
  destruct v as [| | b | x | s | t | items | props]; cbn; try reflexivity.
  destruct (prop "id" props) as [[| | b | x | s | t | items | props']|]; cbn;
    try reflexivity.
  now rewrite Heqb.
Qed.

Lemma find_first (i : string) (before after : list entry) (e : entry) (st : state) :
  Forall (fun e' => nullish e' = false /\ id_of e' <> Some i) before ->
  nullish e = false -> id_of e = Some i ->
  Array_find (has_id i) (before ++ e :: after) st = (Normal (Some e), st).
Proof.
  intros Hbefore Hn Hid.
  induction before as [|e' before IH]; cbn [app Array_find]; unfold mbind, M_bind.
  - rewrite has_id_spec, Hn. now rewrite bool_decide_eq_true_2.
  - apply Forall_cons_1 in Hbefore. destruct Hbefore as [[Hn' Hid'] Hbefore].
    rewrite has_id_spec, Hn'. rewrite bool_decide_eq_false_2 by exact Hid'.
    now apply IH.
Qed.

Lemma find_none (i : string) (l : list entry) (st : state) :
  Forall (fun e' => nullish e' = false /\ id_of e' <> Some i) l ->
  Array_find (has_id i) l st = (Normal None, st).
Proof.
  induction l as [|e' l IH]; intros Hall; cbn [Array_find]; unfold mbind, M_bind.
  - reflexivity.
  - apply Forall_cons_1 in Hall. destruct Hall as [[Hn' Hid'] Hall].
    rewrite has_id_spec, Hn'. rewrite bool_decide_eq_false_2 by exact Hid'.
    now apply IH.
Qed.

Lemma find_nullish (i : string) (before after : list entry) (e : entry) (st : state) :
  Forall (fun e' => nullish e' = false /\ id_of e' <> Some i) before ->
  nullish e = true ->
  Array_find (has_id i) (before ++ e :: after) st = (Throw TypeError, st).
Proof.
  intros Hbefore Hn.
  induction before as [|e' before IH]; cbn [app Array_find]; unfold mbind, M_bind.
  - now rewrite has_id_spec, Hn.
  - apply Forall_cons_1 in Hbefore. destruct Hbefore as [[Hn' Hid'] Hbefore].
    rewrite has_id_spec, Hn'. rewrite bool_decide_eq_false_2 by exact Hid'.
    now apply IH.
Qed.

Lemma find_frame (i : string) (l : list entry) (st : state) :
  snd (Array_find (has_id i) l st) = st
  /\ (fst (Array_find (has_id i) l st) = Throw TypeError
      \/ exists r, fst (Array_find (has_id i) l st) = Normal r).
Proof.
  induction l as [|e l IH]; cbn [Array_find]; unfold mbind, M_bind.
  - split; [reflexivity | right; now eexists].
  - rewrite has_id_spec. destruct (nullish e); [split; [reflexivity | now left]|].
    destruct (bool_decide _); [split; [reflexivity | right; now eexists] | exact IH].
Qed.

(** X14. With the map set, a click on a list entry passes to the map, as
    the new centre of its view, the coordinates of the first workout of the
    collection that has the id of the entry, provided no [undefined] or
    [null] comes before it; the state is as before. *)
Theorem X14_click_finds_first (i : string) (before after : list entry) (e : entry)
    (st : state) :
  workouts st = (before ++ e :: after)%list ->
  Forall (fun e' => nullish e' = false /\ id_of e' <> Some i) before ->
  nullish e = false -> id_of e = Some i ->
  _moveToPopup true (Some i) st = (Normal (Some e), st).
Proof.
  intros Hws Hbefore Hn Hid.
  unfold _moveToPopup, gets, mbind, M_bind. rewrite Hws.
  now rewrite (find_first i before after e st Hbefore Hn Hid).
Qed.

(** X15. A click in the list never changes the state. Outside every entry
    it does nothing; on an entry it ends in a TypeError when the map is not
    set, when no workout has the id of the entry, and when an [undefined] or
    [null] of the collection comes before the first workout that has it. *)
Theorem X15_click_edges (map : bool) (clicked : option string) (st : state) :
  snd (_moveToPopup map clicked st) = st
  /\ (clicked = None -> fst (_moveToPopup map clicked st) = Normal None)
  /\ (forall i : string,
        clicked = Some i ->
        (map = false
         \/ Forall (fun e' => nullish e' = false /\ id_of e' <> Some i) (workouts st)
         \/ exists (before after : list entry) (e : entry),
              workouts st = (before ++ e :: after)%list
              /\ Forall (fun e' => nullish e' = false /\ id_of e' <> Some i) before
              /\ nullish e = true) ->
        fst (_moveToPopup map clicked st) = Throw TypeError).
Proof.
  split; [|split].
  - destruct clicked as [i|]; [|reflexivity].
    unfold _moveToPopup, gets, mbind, M_bind.
    destruct (find_frame i (workouts st) st) as [Hst _].
    destruct (Array_find (has_id i) (workouts st) st) as [[r|err] st1];
      cbn [snd] in *; subst st1; [|reflexivity].
    destruct map; cbn; [|reflexivity]. now destruct r.
  - now intros ->.
  - intros i -> Hcase. unfold _moveToPopup, gets, mbind, M_bind.
    destruct Hcase as [-> | [Hnone | (before & after & e & Hws & Hbefore & Hn)]].
    + destruct (find_frame i (workouts st) st) as [_ [Hthrow | [r Hr]]];
        destruct (Array_find (has_id i) (workouts st) st) as [[r'|err] st1];
        cbn in *; congruence.
    + rewrite (find_none i (workouts st) st Hnone). now destruct map.
    + rewrite Hws. now rewrite (find_nullish i before after e st Hbefore Hn).
Qed.

(** *** A load that fails *)

Lemma forEach_emit_until (f : entry -> event) (k : entry -> M unit) (e : entry)
    (l l' : list entry) : forall st : state,
  Forall (fun e' => forall st0, k e' st0 = emit (f e') st0) l ->
  (forall st0, k e st0 = (Throw TypeError, st0)) ->
  forEach k (l ++ e :: l') st
  = (Throw TypeError,
     mkState (workouts st) (mapEvent st) (form st) (localStorage st) (ticks st)
             (log st ++ map f l)).
Proof.
  induction l as [|e' l IH]; intros st Hall He.
  - cbn [app forEach]. unfold mbind, M_bind. rewrite He. cbn.
    rewrite app_nil_r. now destruct st.
  - apply Forall_cons_1 in Hall. destruct Hall as [He' Hl].
    cbn [app forEach]. unfold mbind, M_bind. rewrite He'.
    unfold emit, modify. rewrite (IH _ Hl He). cbn.
    now rewrite <- app_assoc.
Qed.

(** X16. If, after instances with finite Number fields, the collection
    holds [undefined], then a page loaded over its stored text shows the
    list entries of those instances and ends in a TypeError; the map, when it
    arrives, shows their markers and ends in a TypeError too. *)
Theorem X16_load_stops_at_undefined (ws : list Workout) (rest : list entry)
    (st st' : state) :
  workouts st = (map Instance ws ++ Plain Undefined :: rest)%list ->
  Forall tagged ws ->
  Forall (fun w => Forall (fun x => Number_isFinite x = true) (numbers w)) ws ->
  localStorage st' = localStorage (snd (_setLocalStorage st)) ->
  let records := map (fun w => read_entry (Instance w)) ws in
  exists st1 st2 : state,
    new_App st' = (Throw TypeError, st1)
    /\ workouts st1 = (records ++ Plain Null :: map read_entry rest)%list
    /\ log st1 = (log st' ++ map ListItem records)%list
    /\ _loadMap st1 = (Throw TypeError, st2)
    /\ log st2 = (log st1 ++ map Marker records)%list.
Proof.
  intros Hws Htag Hfin Hls records.
  unfold new_App. rewrite (load_stored st st' Hls), Hws.
  rewrite map_app, map_map. cbn [map]. fold records.
  change (read_entry (Plain Undefined)) with (Plain Null).
  rewrite (forEach_emit_until ListItem).
  2: { unfold records. apply Forall_map.
       rewrite Forall_forall in Htag, Hfin. apply Forall_forall.
       intros w Hw st0. apply render_read_instance; auto. }
  2: { reflexivity. }
  eexists. eexists. split; [reflexivity|]. cbn [workouts log].
  split; [reflexivity|]. split; [reflexivity|].
  unfold _loadMap, gets, mbind, M_bind. cbn [workouts].
  rewrite (forEach_emit_until Marker).
  2: { unfold records. apply Forall_map. apply Forall_forall.
       intros w _ st0. reflexivity. }
  2: { reflexivity. }
  split; reflexivity.
Qed.

End Host.

(** ** The properties on the sample host *)

Lemma C1_witness :
  mapEvent (opened not_a_number_form) = Some New_York
  /\ Number_isFinite (sample_ToNumber "abc") = false
  /\ exists st' : state,
       _newWorkout sample_ToNumber UTC sample_clock (opened not_a_number_form)
       = (Normal tt, st')
       /\ log st' = [PreventDefault; Alert "Inputs have to be positive numbers!"]
       /\ workouts st' = []
       /\ localStorage st' = ∅
       /\ ticks st' = 0%nat.
Proof.
  split; [reflexivity|]. split; [reflexivity|].
  apply (C1_invalid_input_rejected sample_ToNumber UTC sample_clock
           (opened not_a_number_form) New_York); [reflexivity|].
  left. split; [reflexivity|]. left. reflexivity.
Defined.

Lemma C2_witness :
  gt0 5.2 = true /\ gt0 24 = true /\ gt0 178 = true
  /\ exists (w : Workout) (st' : state),
       new_Running UTC sample_clock New_York 5.2 24 178 (opened running_form)
       = (Normal w, st')
       /\ distance w = 5.2%float /\ duration w = 24%float
       /\ cadence w = Some 178%float
       /\ allPositive [distance w; duration w; 178%float] = true
       /\ PrimFloat.is_zero (distance w) = false
       /\ pace w = Some (duration w / distance w)%float.
Proof.
  repeat (split; [reflexivity|]).
  apply (C2_running_pace UTC sample_clock); reflexivity.
Defined.

Lemma C3_witness :
  gt0 20 = true /\ gt0 60 = true
  /\ (exists (w : Workout) (st' : state),
        new_Cycling UTC sample_clock New_York 20 60 300 (opened descent_form)
        = (Normal w, st')
        /\ distance w = 20%float /\ duration w = 60%float
        /\ elevation w = Some 300%float
        /\ allPositive [distance w; duration w] = true
        /\ speed w = Some (distance w / (duration w / 60))%float)
  /\ (exists (w : Workout) (st' : state),
        new_Cycling UTC sample_clock New_York 20 60 300 (opened descent_form)
        = (Normal w, st')
        /\ speed w = Some 20%float).
Proof.
  repeat (split; [reflexivity|]).
  apply (C3_cycling_speed UTC sample_clock); reflexivity.
Defined.

Lemma C6_witness :
  mapEvent (opened descent_form) = Some New_York
  /\ inputType descent_form = "cycling"
  /\ Number_isFinite (sample_ToNumber "20") = true /\ gt0 (sample_ToNumber "20") = true
  /\ Number_isFinite (sample_ToNumber "60") = true /\ gt0 (sample_ToNumber "60") = true
  /\ Number_isFinite (sample_ToNumber "-300") = true
  /\ gt0 (sample_ToNumber "-300") = false
  /\ exists (w : Workout) (st' : state),
       _newWorkout sample_ToNumber UTC sample_clock (opened descent_form)
       = (Normal tt, st')
       /\ workouts st' = [Instance w]
       /\ log st' = [PreventDefault; Marker (Instance w); ListItem (Instance w)]
       /\ type w = "cycling"
       /\ extra w = Cycling (-300) (calcSpeed 20 60)
       /\ distance w = 20%float
       /\ duration w = 60%float
       /\ coords w = New_York.
Proof.
  repeat (split; [reflexivity|]).
  apply (C6_elevation_sign_not_checked sample_ToNumber UTC sample_clock
           (opened descent_form) New_York); reflexivity.
Defined.

Lemma C7_witness :
  mapEvent (opened zero_distance_form) = Some New_York
  /\ inputType zero_distance_form = "cycling"
  /\ PrimFloat.is_zero (sample_ToNumber "0") = true
  /\ exists st' : state,
       _newWorkout sample_ToNumber UTC sample_clock (opened zero_distance_form)
       = (Normal tt, st')
       /\ log st' = [PreventDefault; Alert message]
       /\ workouts st' = []
       /\ ticks st' = 0%nat.
Proof.
  repeat (split; [reflexivity|]).
  apply (C7_zero_distance_never_divides sample_ToNumber UTC sample_clock
           (opened zero_distance_form) New_York);
    [reflexivity | right; reflexivity | reflexivity].
Defined.

Lemma C8_witness :
  0 <= sample_clock 1
  /\ exists (w : Workout) (st' : state),
       new_Running UTC sample_clock New_York 5.2 24 178 (opened running_form)
       = (Normal w, st')
       /\ date w = 1604102400000
       /\ id w = "4102400001"
       /\ numeral_value 0 (id w) = Some 4102400001.
Proof.
  assert (0 <= sample_clock 1) as Hclock by (unfold sample_clock; lia).
  split; [exact Hclock|].
  destruct (C8_id_and_date UTC sample_clock New_York 5.2 24 178
              (opened running_form) Hclock)
    as [(w & st' & Hrun & Hdate & Hid & Hvalue & _) _].
  exists w, st'. split; [exact Hrun|]. split; [exact Hdate|].
  split; [exact Hid | exact Hvalue].
Defined.

Lemma C10_witness :
  mapEvent (opened walking_form) = Some New_York
  /\ inputType walking_form <> "running"
  /\ inputType walking_form <> "cycling"
  /\ exists st' : state,
       _newWorkout sample_ToNumber UTC sample_clock (opened walking_form)
       = (Throw TypeError, st')
       /\ workouts st' = [Plain Undefined]
       /\ log st' = [PreventDefault]
       /\ form st' = walking_form
       /\ localStorage st' = ∅
       /\ ticks st' = 0%nat.
Proof.
  split; [reflexivity|]. split; [discriminate|]. split; [discriminate|].
  apply (C10_unknown_type_appends_undefined sample_ToNumber UTC sample_clock
           (opened walking_form) New_York); [reflexivity | discriminate ..].
Defined.

(** C10, as first stated, fails on the submission of [walking_form]: the
    handler ends with a TypeError and the store holds no item under
    "workouts", instead of the collection with its [undefined] entry. *)
Lemma C10_counterexample :
  let run := _newWorkout sample_ToNumber UTC sample_clock (opened walking_form) in
  fst run = Throw TypeError
  /\ workouts (snd run) = [Plain Undefined]
  /\ localStorage (snd run) !! "workouts" = None
  /\ localStorage (snd run) !! "workouts"
     <> Some (JSON_stringify (Arr (map entry_value (workouts (snd run))))).
Proof. repeat split. discriminate. Qed.

Lemma C5_witness :
  let st := snd (_newWorkout sample_ToNumber UTC sample_clock (opened running_form)) in
  workouts st = map Instance [sample_run]
  /\ Forall (fun w => Forall (fun x => Number_isFinite x = true) (numbers w)) [sample_run]
  /\ localStorage (reloaded st) = localStorage (snd (_setLocalStorage st))
  /\ exists (j : json) (ps : list (list (string * value))),
       localStorage (reloaded st) !! "workouts" = Some (Text j)
       /\ workouts (snd (_getLocalStorage (reloaded st)))
          = map (fun props => Plain (Obj props)) ps
       /\ length ps = 1%nat
       /\ Forall2 (fun w props => fields_read_back (own_fields w) props)
                  [sample_run] ps.
Proof.
  assert (workouts (snd (_newWorkout sample_ToNumber UTC sample_clock
                           (opened running_form)))
          = map Instance [sample_run]) as Hws by reflexivity.
  assert (Forall (fun w => Forall (fun x => Number_isFinite x = true) (numbers w))
                 [sample_run]) as Hfin by (repeat constructor).
  split; [exact Hws|]. split; [exact Hfin|]. split; [reflexivity|].
  apply (C5_reload [sample_run] _ _ Hws Hfin). reflexivity.
Defined.

(** C5, as first stated, fails on the collection that holds [sample_run]:
    the record read back has, as its [date], the ISO string of the original
    date where the original has the Date itself, so its field values are not
    identical to the original's. *)
Lemma C5_counterexample :
  let st := snd (_newWorkout sample_ToNumber UTC sample_clock (opened running_form)) in
  exists props : list (string * value),
    workouts st = [Instance sample_run]
    /\ workouts (snd (_getLocalStorage (reloaded st))) = [Plain (Obj props)]
    /\ prop "date" (own_fields sample_run) = Some (DateObj 1604102400000)
    /\ prop "date" props = Some (Str "2020-10-31T00:00:00.000Z")
    /\ props <> own_fields sample_run.
Proof.
  eexists. split; [reflexivity|]. split; [reflexivity|].
  split; [reflexivity|]. split; [reflexivity|]. discriminate.
Qed.

(** ** Examples *)

(** The scenario of the specification: 5.2 km in 24 min at 178 steps/min,
    submitted on 31 October. *)
Example sample_submission :
  let run := _newWorkout sample_ToNumber UTC sample_clock (opened running_form) in
  fst run = Normal tt
  /\ workouts (snd run) = [Instance sample_run]
  /\ log (snd run) = [PreventDefault; Marker (Instance sample_run); ListItem (Instance sample_run)]
  /\ form (snd run) = mkForm "running" "" "" "" "" true
  /\ pace sample_run = Some 4.615384615384615%float.
Proof. repeat split. Qed.

(** The stored text of that collection, as a tree. *)
Example sample_item :
  let run := _newWorkout sample_ToNumber UTC sample_clock (opened running_form) in
  localStorage (snd run) !! "workouts"
  = Some (Text (JArr [JObj [ ("date", JStr "2020-10-31T00:00:00.000Z");
                             ("id", JStr "4102400001");
                             ("clicks", JNum 0);
                             ("coords", JArr [JNum 40.7; JNum (-74)]);
                             ("distance", JNum 5.2);
                             ("duration", JNum 24);
                             ("type", JStr "running");
                             ("cadence", JNum 178);
                             ("pace", JNum (24 / 5.2));
                             ("description", JStr "Running on October 31") ]])).
Proof. reflexivity. Qed.

(** In the range of a counter, the additions of [click] are exact. *)
Example thousand_clicks :
  clicks (click (click (click sample_run))) = 3%float
  /\ clicks (Nat.iter 1000 click sample_run) = 1000%float.
Proof. split; vm_compute; reflexivity. Qed.

(** A pace beyond the largest Number: the submission passes the validation,
    the record is stored with the pace [null], and the next load of the page
    ends in the TypeError of [toFixed] on it. *)
Example overflowing_pace :
  let run := _newWorkout sample_ToNumber UTC sample_clock (opened overflow_form) in
  let load := _getLocalStorage (reloaded (snd run)) in
  fst run = Normal tt
  /\ (exists w : Workout,
        workouts (snd run) = [Instance w] /\ pace w = Some infinity)
  /\ fst load = Throw TypeError
  /\ (exists props : list (string * value),
        workouts (snd load) = [Plain (Obj props)] /\ prop "pace" props = Some Null).
Proof.
  split; [reflexivity|]. split; [eexists; split; reflexivity|].
  split; [reflexivity|]. eexists; split; reflexivity.
Qed.

(** After the TypeError of a submission of unknown type, the [undefined]
    entry stays in the collection: the next valid submission stores it as
    [null], and the next load of the page ends in a TypeError on it. *)
Example undefined_entry_later :
  let crash := _newWorkout sample_ToNumber UTC sample_clock (opened walking_form) in
  let run := _newWorkout sample_ToNumber UTC sample_clock (filled running_form (snd crash)) in
  let load := _getLocalStorage (reloaded (snd run)) in
  fst run = Normal tt
  /\ workouts (snd run) = [Plain Undefined; Instance sample_run]
  /\ (exists j : json,
        localStorage (snd run) !! "workouts" = Some (Text (JArr [JNull; j])))
  /\ fst load = Throw TypeError.
Proof.
  split; [reflexivity|]. split; [reflexivity|].
  split; [eexists; reflexivity | reflexivity].
Qed.

(** ** Further properties on the sample host *)

Lemma reloaded_store (st : state) : localStorage (reloaded st) = localStorage st.
Proof. reflexivity. Qed.

Lemma X3_witness :
  let st := filled running_form
              (snd (_newWorkout sample_ToNumber UTC sample_clock (opened running_form))) in
  in_sync st
  /\ fst (_newWorkout sample_ToNumber UTC sample_clock st) = Normal tt
  /\ in_sync (snd (_newWorkout sample_ToNumber UTC sample_clock st)).
Proof.
  assert (in_sync (filled running_form
                     (snd (_newWorkout sample_ToNumber UTC sample_clock
                             (opened running_form))))) as Hsync by reflexivity.
  split; [exact Hsync|]. split; [reflexivity|].
  apply (X3_store_in_sync sample_ToNumber UTC sample_clock _ Hsync). reflexivity.
Defined.

Lemma X4_witness :
  mapEvent (opened running_form) = Some New_York
  /\ inputType running_form = "running"
  /\ validInputs [sample_ToNumber "5.2"; sample_ToNumber "24"; sample_ToNumber "178"] = true
  /\ allPositive [sample_ToNumber "5.2"; sample_ToNumber "24"; sample_ToNumber "178"] = true
  /\ exists (w : Workout) (st' : state),
       _newWorkout sample_ToNumber UTC sample_clock (opened running_form)
       = (Normal tt, st')
       /\ workouts st' = [Instance w]
       /\ log st' = [PreventDefault; Marker (Instance w); ListItem (Instance w)]
       /\ form st' = mkForm "running" "" "" "" "" true
       /\ in_sync st'
       /\ type w = "running"
       /\ extra w = Running 178 (calcPace 24 5.2)
       /\ distance w = 5.2%float /\ duration w = 24%float /\ coords w = New_York
       /\ clicks w = 0%float.
Proof.
  repeat (split; [reflexivity|]).
  apply (X4_valid_running_accepted sample_ToNumber UTC sample_clock
           (opened running_form) New_York); reflexivity.
Defined.

Lemma X8_witness :
  let st := snd (_newWorkout sample_ToNumber UTC sample_clock (opened running_form)) in
  let records := [read_entry (Instance sample_run)] in
  workouts st = map Instance [sample_run]
  /\ Forall tagged [sample_run]
  /\ Forall (fun w => Forall (fun x => Number_isFinite x = true) (numbers w)) [sample_run]
  /\ localStorage (reloaded st) = localStorage (snd (_setLocalStorage st))
  /\ exists st1 st2 : state,
       new_App (reloaded st) = (Normal tt, st1)
       /\ workouts st1 = records
       /\ log st1 = map ListItem records
       /\ _loadMap st1 = (Normal tt, st2)
       /\ workouts st2 = records
       /\ log st2 = (log st1 ++ map Marker records)%list.
Proof.
  assert (workouts (snd (_newWorkout sample_ToNumber UTC sample_clock
                           (opened running_form)))
          = map Instance [sample_run]) as Hws by reflexivity.
  assert (Forall tagged [sample_run]) as Htag by (repeat constructor).
  assert (Forall (fun w => Forall (fun x => Number_isFinite x = true) (numbers w))
                 [sample_run]) as Hfin by (repeat constructor).
  split; [exact Hws|]. split; [exact Htag|]. split; [exact Hfin|].
  split; [reflexivity|].
  apply (X8_load_renders_all [sample_run] _
           (reloaded (snd (_newWorkout sample_ToNumber UTC sample_clock
                             (opened running_form))))
           Hws Htag Hfin).
  reflexivity.
Defined.

Lemma X9_witness :
  let st := snd (_newWorkout sample_ToNumber UTC sample_clock (opened walking_form)) in
  let st' := reloaded (snd (_setLocalStorage st)) in
  Exists unrenderable (workouts st)
  /\ localStorage st' = localStorage (snd (_setLocalStorage st))
  /\ fst (new_App st') = Throw TypeError.
Proof.
  assert (Exists unrenderable
            (workouts (snd (_newWorkout sample_ToNumber UTC sample_clock
                              (opened walking_form))))) as Hex
    by (apply Exists_cons_hd; reflexivity).
  split; [exact Hex|]. split; [reflexivity|].
  apply (X9_load_crashes _ _ Hex). reflexivity.
Defined.

Lemma X10_witness :
  let st := snd (_newWorkout sample_ToNumber UTC sample_clock (opened running_form)) in
  localStorage (reloaded st) = localStorage (snd (_setLocalStorage st))
  /\ localStorage (snd (_setLocalStorage (snd (new_App (reloaded st))))) !! "workouts"
     = localStorage (reloaded st) !! "workouts".
Proof.
  split; [reflexivity|].
  apply (X10_stored_text_stable
           (snd (_newWorkout sample_ToNumber UTC sample_clock (opened running_form)))).
  reflexivity.
Defined.

Lemma X12_witness :
  let st1 := opened running_form in
  let st2 := advance 2 (opened running_form) in
  0 <= sample_clock (S (ticks st1)) < sample_clock (S (ticks st2))
  /\ sample_clock (S (ticks st2)) < sample_clock (S (ticks st1)) + 10 ^ 10
  /\ made UTC sample_clock st1 sample_run
  /\ made UTC sample_clock st2 sample_run_2
  /\ id sample_run <> id sample_run_2.
Proof.
  assert (0 <= sample_clock 1 < sample_clock 3) as H1 by (unfold sample_clock; lia).
  assert (sample_clock 3 < sample_clock 1 + 10 ^ 10) as H2 by (unfold sample_clock; lia).
  assert (made UTC sample_clock (opened running_form) sample_run) as Hm1.
  { exists New_York, 5.2%float, 24%float, 178%float. eexists. left. reflexivity. }
  assert (made UTC sample_clock (advance 2 (opened running_form)) sample_run_2) as Hm2.
  { exists New_York, 5.2%float, 24%float, 178%float. eexists. left. reflexivity. }
  split; [exact H1|]. split; [exact H2|]. split; [exact Hm1|]. split; [exact Hm2|].
  exact (X12_ids_differ UTC sample_clock (opened running_form)
           (advance 2 (opened running_form)) sample_run sample_run_2 H1 H2 Hm1 Hm2).
Defined.

Lemma X13_witness :
  let st1 := opened running_form in
  let st2 := advance 1 (opened running_form) in
  10 ^ 9 <= slow_clock (S (ticks st1))
  /\ slow_clock (S (ticks st2)) = slow_clock (S (ticks st1)) + 10 ^ 10 * 1
  /\ made UTC slow_clock st1 slow_run_1
  /\ made UTC slow_clock st2 slow_run_2
  /\ id slow_run_1 = id slow_run_2.
Proof.
  assert (10 ^ 9 <= slow_clock 1) as H1 by (unfold slow_clock; lia).
  assert (slow_clock 2 = slow_clock 1 + 10 ^ 10 * 1) as H2 by (unfold slow_clock; lia).
  assert (made UTC slow_clock (opened running_form) slow_run_1) as Hm1.
  { exists New_York, 5.2%float, 24%float, 178%float. eexists. left. reflexivity. }
  assert (made UTC slow_clock (advance 1 (opened running_form)) slow_run_2) as Hm2.
  { exists New_York, 5.2%float, 24%float, 178%float. eexists. left. reflexivity. }
  split; [exact H1|]. split; [exact H2|]. split; [exact Hm1|]. split; [exact Hm2|].
  exact (X13_ids_repeat UTC slow_clock (opened running_form)
           (advance 1 (opened running_form)) slow_run_1 slow_run_2 1
           H1 ltac:(lia) H2 Hm1 Hm2).
Defined.

Lemma X14_witness :
  let st := snd (_newWorkout sample_ToNumber UTC sample_clock
                   (filled running_form
                      (snd (_newWorkout sample_ToNumber UTC sample_clock
                              (opened running_form))))) in
  workouts st = ([Instance sample_run] ++ Instance sample_run_2 :: [])%list
  /\ Forall (fun e' => nullish e' = false /\ id_of e' <> Some "4102400003")
            [Instance sample_run]
  /\ _moveToPopup true (Some "4102400003") st = (Normal (Some (Instance sample_run_2)), st).
Proof.
  assert (Forall (fun e' => nullish e' = false /\ id_of e' <> Some "4102400003")
                 [Instance sample_run]) as Hbefore.
  { constructor; [|constructor]. split; [reflexivity | discriminate]. }
  split; [reflexivity|]. split; [exact Hbefore|].
  apply (X14_click_finds_first "4102400003" [Instance sample_run] []
           (Instance sample_run_2)
           (snd (_newWorkout sample_ToNumber UTC sample_clock
                   (filled running_form
                      (snd (_newWorkout sample_ToNumber UTC sample_clock
                              (opened running_form))))))
           eq_refl Hbefore); reflexivity.
Defined.

Lemma X16_witness :
  let st := snd (_newWorkout sample_ToNumber UTC sample_clock
                   (filled walking_form
                      (snd (_newWorkout sample_ToNumber UTC sample_clock
                              (opened running_form))))) in
  let st' := reloaded (snd (_setLocalStorage st)) in
  let records := [read_entry (Instance sample_run)] in
  workouts st = (map Instance [sample_run] ++ Plain Undefined :: [])%list
  /\ exists st1 st2 : state,
       new_App st' = (Throw TypeError, st1)
       /\ workouts st1 = (records ++ Plain Null :: [])%list
       /\ log st1 = map ListItem records
       /\ _loadMap st1 = (Throw TypeError, st2)
       /\ log st2 = (log st1 ++ map Marker records)%list.
Proof.
  assert (Forall tagged [sample_run]) as Htag by (repeat constructor).
  assert (Forall (fun w => Forall (fun x => Number_isFinite x = true) (numbers w))
                 [sample_run]) as Hfin by (repeat constructor).
  split; [reflexivity|].
  apply (X16_load_stops_at_undefined [sample_run] []
           (snd (_newWorkout sample_ToNumber UTC sample_clock
                   (filled walking_form
                      (snd (_newWorkout sample_ToNumber UTC sample_clock
                              (opened running_form))))))
           (reloaded
              (snd (_setLocalStorage
                      (snd (_newWorkout sample_ToNumber UTC sample_clock
                              (filled walking_form
                                 (snd (_newWorkout sample_ToNumber UTC sample_clock
                                         (opened running_form)))))))))
           eq_refl Htag Hfin).
  apply reloaded_store.
Defined.
